(** * The agent's tool layer and control loop

    A shallow embedding of [agent/tools.py] and [agent/agent.py]:
    the four tools ([get_coordinates_from_city], [get_current_weather],
    [search_wikipedia], [calculate]), the two nodes and the conditional
    edge of the workflow, and the two query entry points [run_query]
    and [stream_query].

    Conventions.
    - A Python [str] is a [string]: the sequence of its code points, each
      below 256.
    - A Python [int] is a [Z], a Python [float] a binary64 [float].
    - A computation that may raise is an [outcome]; exceptions carry
      their class, and [except C] catches the instances of [C] as
      [isinstance] decides them along the class hierarchy.
    - What the libraries decide (how the interpreter words its own
      errors, which inputs a pydantic field accepts, how a float is
      printed) is the interface [Runtime]. *)

From Stdlib Require Import ZArith String Ascii List Bool Lia DecimalString.
From Stdlib Require Import PrimFloat SpecFloat FloatOps.
Import ListNotations.
Open Scope string_scope.

(* ================================================================== *)
(** * Python values, exceptions, and computations that may raise *)
(* ================================================================== *)

Module Py.

(** ** Exception classes

    The built-in classes the tools can meet, the classes of
    [requests.exceptions], [json.JSONDecodeError] and pydantic's
    [ValidationError]. *)
Inductive cls : Set :=
| BaseException | Exception
| SystemExit | KeyboardInterrupt
| ArithmeticError | ZeroDivisionError
| LookupError | KeyError | IndexError
| NameError | SyntaxError | TypeError | ValueError | AttributeError
| StopIteration | OSError
| RuntimeError | RecursionError
| GraphRecursionError             (* langgraph.errors *)
| JSONDecodeError                 (* json.JSONDecodeError *)
| RequestException | HTTPError | ConnectionError | Timeout
| ConnectTimeout | ReadTimeout
| InvalidJSONError | RequestsJSONDecodeError
| ValidationError.                (* pydantic.ValidationError *)

Scheme Equality for cls.

(** The direct base classes, as the class statements give them. *)
Definition bases (c : cls) : list cls :=
  match c with
  | BaseException => []
  | Exception | SystemExit | KeyboardInterrupt => [BaseException]
  | ArithmeticError | LookupError | NameError | SyntaxError
  | TypeError | ValueError | AttributeError | StopIteration
  | OSError | RuntimeError => [Exception]
  | RecursionError => [RuntimeError]
  | GraphRecursionError => [RecursionError]
  | ZeroDivisionError => [ArithmeticError]
  | KeyError | IndexError => [LookupError]
  | JSONDecodeError | ValidationError => [ValueError]
  | RequestException => [OSError]
  | HTTPError | ConnectionError | Timeout
  | InvalidJSONError => [RequestException]
  | ConnectTimeout => [ConnectionError; Timeout]
  | ReadTimeout => [Timeout]
  | RequestsJSONDecodeError => [InvalidJSONError; JSONDecodeError]
  end.

Fixpoint subclass_upto (depth : nat) (c d : cls) : bool :=
  cls_beq c d ||
  match depth with
  | O => false
  | S n => existsb (fun b => subclass_upto n b d) (bases c)
  end.

(** [issubclass c d]; no chain of bases is longer than six. *)
Definition issubclass (c d : cls) : bool := subclass_upto 6 c d.

(** An exception instance: its class, [str(e)], and for a
    [ValidationError] the text of [e.errors()]. *)
Record exn : Set := mkExn {
  exn_class : cls;
  exn_str : string;
  exn_errors : string
}.

Definition isinstance (e : exn) (c : cls) : bool :=
  issubclass (exn_class e) c.

(** ** Computations that return or raise *)
Inductive outcome (A : Type) : Type :=
| Return (a : A)
| Raise (e : exn).
Arguments Return {A} a.
Arguments Raise {A} e.

Definition bind {A B} (m : outcome A) (k : A -> outcome B) : outcome B :=
  match m with
  | Return a => k a
  | Raise e => Raise e
  end.

(** ** Values a decoded JSON document is made of *)
#[warnings="-register-all"]
Inductive pyval : Type :=
| VNone
| VBool (b : bool)
| VInt (i : Z)
| VFloat (x : float)
| VStr (s : string)
| VList (items : list pyval)
| VDict (entries : list (string * pyval)).

Inductive pytype : Set :=
| TNone | TBool | TInt | TFloat | TStr | TList | TDict.

Definition type_of (v : pyval) : pytype :=
  match v with
  | VNone => TNone | VBool _ => TBool | VInt _ => TInt
  | VFloat _ => TFloat | VStr _ => TStr | VList _ => TList
  | VDict _ => TDict
  end.

(** [type(v).__name__] *)
Definition type_name (t : pytype) : string :=
  match t with
  | TNone => "NoneType" | TBool => "bool" | TInt => "int"
  | TFloat => "float" | TStr => "str" | TList => "list"
  | TDict => "dict"
  end.

(** [bool(v)], which [if not v] negates. *)
Definition truthy (v : pyval) : bool :=
  match v with
  | VNone => false
  | VBool b => b
  | VInt i => negb (Z.eqb i 0)
  | VFloat x => negb (PrimFloat.eqb x 0%float)
  | VStr s => negb (String.eqb s "")
  | VList l => match l with [] => false | _ => true end
  | VDict d => match d with [] => false | _ => true end
  end.

(** A dict keeps its entries in insertion order; a key is looked up
    in the first entry that carries it. *)
Fixpoint lookup (key : string) (d : list (string * pyval))
  : option pyval :=
  match d with
  | [] => None
  | (k, v) :: rest => if String.eqb k key then Some v else lookup key rest
  end.

Definition has_key (key : string) (d : list (string * pyval)) : bool :=
  match lookup key d with Some _ => true | None => false end.

(** ** Errors the interpreter itself raises while a tool body runs *)
Inductive fault : Type :=
| NoAttribute (t : pytype) (attr : string)   (* v.get on a non-dict *)
| NotSubscriptable (t : pytype)              (* v[k] *)
| BadIndexType (container key : pytype)      (* list or str index *)
| IndexOutOfRange (container : pytype)
| MissingKey (key : pyval)                   (* d[k] *)
| Unhashable (key : pytype)
| NotIterable (t : pytype)                   (* iter(v) *)
| NotAContainer (t : pytype)                 (* k in v *)
| Exhausted.                                 (* next on an empty iterator *)

Definition fault_class (f : fault) : cls :=
  match f with
  | NoAttribute _ _ => AttributeError
  | NotSubscriptable _ | BadIndexType _ _ | Unhashable _
  | NotIterable _ | NotAContainer _ => TypeError
  | IndexOutOfRange _ => IndexError
  | MissingKey _ => KeyError
  | Exhausted => StopIteration
  end.

End Py.
Export Py.

Notation "x <- m ;; k" := (Py.bind m (fun x => k))
  (at level 61, m at next level, right associativity).

(* ================================================================== *)
(** * What the libraries decide *)
(* ================================================================== *)

(** The wording of the interpreter's own errors, the inputs pydantic's
    field validators accept (the models use the default, lax mode), how
    pydantic reports a failed validation, and how it prints a float.
    The laws are the part of pydantic's behaviour the tools rely on: a
    value already of the declared type is accepted unchanged, and
    [None] is never accepted by a required field. *)
Class Runtime : Type := {
  describe : fault -> string;
  float_validator : pyval -> option float;
  int_validator : pyval -> option Z;
  str_validator : pyval -> option string;
  errors_repr : list (string * pyval) -> string;
  errors_str : list (string * pyval) -> string;
  float_json : float -> string;
  float_accepts_float : forall x, float_validator (VFloat x) = Some x;
  float_rejects_None : float_validator VNone = None;
  int_accepts_int : forall i, int_validator (VInt i) = Some i;
  int_rejects_None : int_validator VNone = None;
  str_accepts_str : forall s, str_validator (VStr s) = Some s;
  str_rejects_None : str_validator VNone = None
}.

(* ================================================================== *)
(** * Strings and JSON text *)
(* ================================================================== *)

Module Text.

Definition dquote : string := String (ascii_of_nat 34) "".

(** [s.lower()], on the letters A to Z. *)
Definition lower_char (c : ascii) : ascii :=
  let n := nat_of_ascii c in
  if (65 <=? n)%nat && (n <=? 90)%nat then ascii_of_nat (n + 32) else c.

Fixpoint lower (s : string) : string :=
  match s with
  | EmptyString => EmptyString
  | String c rest => String (lower_char c) (lower rest)
  end.

(** [needle in s] for two strings. *)
Fixpoint contains (needle s : string) : bool :=
  prefix needle s ||
  match s with
  | EmptyString => false
  | String _ rest => contains needle rest
  end.

Definition hex_digit (n : nat) : ascii :=
  if (n <? 10)%nat then ascii_of_nat (48 + n) else ascii_of_nat (87 + n).

(** The escape [\u00xx] of a code point below 256. *)
Definition u_escape (n : nat) : string :=
  "\u00" ++ String (hex_digit (n / 16)) (String (hex_digit (n mod 16)) "").

(** The two-character escapes shared by both encoders. *)
Definition short_escape (n : nat) : option string :=
  if (n =? 34)%nat then Some ("\" ++ dquote)
  else if (n =? 92)%nat then Some "\\"
  else if (n =? 8)%nat then Some "\b"
  else if (n =? 12)%nat then Some "\f"
  else if (n =? 10)%nat then Some "\n"
  else if (n =? 13)%nat then Some "\r"
  else if (n =? 9)%nat then Some "\t"
  else None.

(** [json.dumps] with its default [ensure_ascii=True]: everything
    outside the printable ASCII range is escaped. *)
Definition escape_ascii_char (c : ascii) : string :=
  let n := nat_of_ascii c in
  match short_escape n with
  | Some e => e
  | None =>
      if (n <? 32)%nat || (126 <? n)%nat then u_escape n
      else String c ""
  end.

(** pydantic's JSON writer: only control characters are escaped. *)
Definition escape_raw_char (c : ascii) : string :=
  let n := nat_of_ascii c in
  match short_escape n with
  | Some e => e
  | None => if (n <? 32)%nat then u_escape n else String c ""
  end.

Fixpoint flat_map_chars (f : ascii -> string) (s : string) : string :=
  match s with
  | EmptyString => EmptyString
  | String c rest => f c ++ flat_map_chars f rest
  end.

Definition quote_ascii (s : string) : string :=
  dquote ++ flat_map_chars escape_ascii_char s ++ dquote.

Definition quote_raw (s : string) : string :=
  dquote ++ flat_map_chars escape_raw_char s ++ dquote.

(** [json.dumps({"error": msg})] *)
Definition dumps_error (msg : string) : string :=
  "{" ++ quote_ascii "error" ++ ": " ++ quote_ascii msg ++ "}".

(** [str(i)] for an int *)
Definition decimal (i : Z) : string := NilZero.string_of_int (Z.to_int i).

(** One [name:value] member and a whole object of pydantic's compact
    JSON output. *)
Definition member (name value : string) : string :=
  quote_raw name ++ ":" ++ value.

Fixpoint join_members (ms : list string) : string :=
  match ms with
  | [] => ""
  | [m] => m
  | m :: rest => m ++ "," ++ join_members rest
  end.

Definition compact_object (ms : list string) : string :=
  "{" ++ join_members ms ++ "}".

End Text.

(* ================================================================== *)
(** * The operations on values the tool bodies use *)
(* ================================================================== *)

Module Ops.
Section WithRuntime.
Context {R : Runtime}.

Definition raise_fault {A} (f : fault) : outcome A :=
  Raise (mkExn (fault_class f) (describe f) "").

(** [v.get(key, default)]; [v.get(key)] is [get v key VNone]. *)
Definition get (v : pyval) (key : string) (default : pyval)
  : outcome pyval :=
  match v with
  | VDict d =>
      Return (match lookup key d with Some x => x | None => default end)
  | _ => raise_fault (NoAttribute (type_of v) "get")
  end.

Definition is_str (key : string) (v : pyval) : bool :=
  match v with VStr s => String.eqb key s | _ => false end.

(** [key in v] for a string [key] *)
Definition contains (key : string) (v : pyval) : outcome bool :=
  match v with
  | VDict d => Return (has_key key d)
  | VList l => Return (existsb (is_str key) l)
  | VStr s => Return (Text.contains key s)
  | _ => raise_fault (NotAContainer (type_of v))
  end.

(** The position an index denotes in a sequence of length [n]. *)
Definition position (n : nat) (i : Z) : option nat :=
  let j := if (i <? 0)%Z then (i + Z.of_nat n)%Z else i in
  if (j <? 0)%Z || (Z.of_nat n <=? j)%Z then None else Some (Z.to_nat j).

Definition as_index (k : pyval) : option Z :=
  match k with
  | VInt i => Some i
  | VBool b => Some (if b then 1%Z else 0%Z)
  | _ => None
  end.

Definition char_at (s : string) (n : nat) : option pyval :=
  match String.get n s with
  | Some c => Some (VStr (String c ""))
  | None => None
  end.

(** [c[k]] *)
Definition getitem (c k : pyval) : outcome pyval :=
  match c with
  | VDict d =>
      match k with
      | VStr s =>
          match lookup s d with
          | Some v => Return v
          | None => raise_fault (MissingKey k)
          end
      | VList _ | VDict _ => raise_fault (Unhashable (type_of k))
      | _ => raise_fault (MissingKey k)
      end
  | VList l =>
      match as_index k with
      | Some i =>
          match position (List.length l) i with
          | Some n =>
              match nth_error l n with
              | Some v => Return v
              | None => raise_fault (IndexOutOfRange TList)
              end
          | None => raise_fault (IndexOutOfRange TList)
          end
      | None => raise_fault (BadIndexType TList (type_of k))
      end
  | VStr s =>
      match as_index k with
      | Some i =>
          match position (String.length s) i with
          | Some n =>
              match char_at s n with
              | Some v => Return v
              | None => raise_fault (IndexOutOfRange TStr)
              end
          | None => raise_fault (IndexOutOfRange TStr)
          end
      | None => raise_fault (BadIndexType TStr (type_of k))
      end
  | _ => raise_fault (NotSubscriptable (type_of c))
  end.

(** [next(iter(v))] *)
Definition first (v : pyval) : outcome pyval :=
  match v with
  | VDict ((k, _) :: _) => Return (VStr k)
  | VList (x :: _) => Return x
  | VStr (String c _) => Return (VStr (String c ""))
  | VDict [] | VList [] | VStr EmptyString => raise_fault Exhausted
  | _ => raise_fault (NotIterable (type_of v))
  end.

(** ** try / except *)
Definition handler (A : Type) : Type := (cls * (exn -> outcome A))%type.

Fixpoint dispatch {A} (hs : list (handler A)) (e : exn) : outcome A :=
  match hs with
  | [] => Raise e
  | (c, h) :: rest => if isinstance e c then h e else dispatch rest e
  end.

Definition try_except {A} (body : outcome A) (hs : list (handler A))
  : outcome A :=
  match body with
  | Return a => Return a
  | Raise e => dispatch hs e
  end.

End WithRuntime.
End Ops.

(* ================================================================== *)
(** * The three result shapes (pydantic models) *)
(* ================================================================== *)

Module Model.
Section WithRuntime.
Context {R : Runtime}.

Definition kwargs : Type := list (string * pyval).

(** The validated value of one declared field, if its input is
    accepted. *)
Definition field {A} (validator : pyval -> option A) (args : kwargs)
  (name : string) : option A :=
  match lookup name args with
  | Some v => validator v
  | None => None
  end.

(** The entry a rejected field contributes to the error report. *)
Definition failure {A} (r : option A) (args : kwargs) (name : string)
  : list (string * pyval) :=
  match r with
  | Some _ => []
  | None =>
      [(name, match lookup name args with Some v => v | None => VNone end)]
  end.

Definition validation_error (errs : list (string * pyval)) : exn :=
  mkExn ValidationError (errors_str errs) (errors_repr errs).

End WithRuntime.
End Model.

Module Coordinates.
Record t : Type := mk { latitude : float; longitude : float }.

Section WithRuntime.
Context {R : Runtime}.

(** Construction from keyword arguments; the keywords the model
    does not declare are ignored. *)
Definition validate (args : Model.kwargs) : outcome t :=
  let lat := Model.field float_validator args "latitude" in
  let lon := Model.field float_validator args "longitude" in
  match lat, lon with
  | Some a, Some b => Return (mk a b)
  | _, _ =>
      Raise (Model.validation_error
               (Model.failure lat args "latitude"
                ++ Model.failure lon args "longitude"))
  end.

Definition model_dump (m : t) : Model.kwargs :=
  [("latitude", VFloat (latitude m)); ("longitude", VFloat (longitude m))].

Definition model_dump_json (m : t) : string :=
  Text.compact_object
    [Text.member "latitude" (float_json (latitude m));
     Text.member "longitude" (float_json (longitude m))].
End WithRuntime.
End Coordinates.

Module CurrentWeather.
Record t : Type := mk {
  latitude : float;
  longitude : float;
  temperature : float;
  wind_speed : float;
  relative_humidity_2m : float;
  is_day : Z;
  weather_code : Z;
  time : string
}.

Section WithRuntime.
Context {R : Runtime}.

Definition validate (args : Model.kwargs) : outcome t :=
  let lat := Model.field float_validator args "latitude" in
  let lon := Model.field float_validator args "longitude" in
  let tmp := Model.field float_validator args "temperature" in
  let wnd := Model.field float_validator args "wind_speed" in
  let hum := Model.field float_validator args "relative_humidity_2m" in
  let day := Model.field int_validator args "is_day" in
  let wmo := Model.field int_validator args "weather_code" in
  let tim := Model.field str_validator args "time" in
  match lat, lon, tmp, wnd, hum, day, wmo, tim with
  | Some a, Some b, Some c, Some d, Some e, Some f, Some g, Some h =>
      Return (mk a b c d e f g h)
  | _, _, _, _, _, _, _, _ =>
      Raise (Model.validation_error
               (Model.failure lat args "latitude"
                ++ Model.failure lon args "longitude"
                ++ Model.failure tmp args "temperature"
                ++ Model.failure wnd args "wind_speed"
                ++ Model.failure hum args "relative_humidity_2m"
                ++ Model.failure day args "is_day"
                ++ Model.failure wmo args "weather_code"
                ++ Model.failure tim args "time"))
  end.

Definition model_dump (m : t) : Model.kwargs :=
  [("latitude", VFloat (latitude m));
   ("longitude", VFloat (longitude m));
   ("temperature", VFloat (temperature m));
   ("wind_speed", VFloat (wind_speed m));
   ("relative_humidity_2m", VFloat (relative_humidity_2m m));
   ("is_day", VInt (is_day m));
   ("weather_code", VInt (weather_code m));
   ("time", VStr (time m))].

Definition model_dump_json (m : t) : string :=
  Text.compact_object
    [Text.member "latitude" (float_json (latitude m));
     Text.member "longitude" (float_json (longitude m));
     Text.member "temperature" (float_json (temperature m));
     Text.member "wind_speed" (float_json (wind_speed m));
     Text.member "relative_humidity_2m"
       (float_json (relative_humidity_2m m));
     Text.member "is_day" (Text.decimal (is_day m));
     Text.member "weather_code" (Text.decimal (weather_code m));
     Text.member "time" (Text.quote_raw (time m))].
End WithRuntime.
End CurrentWeather.

Module WikipediaArticle.
Record t : Type := mk { title : string; summary : string; url : string }.

Section WithRuntime.
Context {R : Runtime}.

Definition validate (args : Model.kwargs) : outcome t :=
  let ttl := Model.field str_validator args "title" in
  let smm := Model.field str_validator args "summary" in
  let lnk := Model.field str_validator args "url" in
  match ttl, smm, lnk with
  | Some a, Some b, Some c => Return (mk a b c)
  | _, _, _ =>
      Raise (Model.validation_error
               (Model.failure ttl args "title"
                ++ Model.failure smm args "summary"
                ++ Model.failure lnk args "url"))
  end.

Definition model_dump (m : t) : Model.kwargs :=
  [("title", VStr (title m)); ("summary", VStr (summary m));
   ("url", VStr (url m))].

Definition model_dump_json (m : t) : string :=
  Text.compact_object
    [Text.member "title" (Text.quote_raw (title m));
     Text.member "summary" (Text.quote_raw (summary m));
     Text.member "url" (Text.quote_raw (url m))].
End WithRuntime.
End WikipediaArticle.

(* ================================================================== *)
(** * The three tools that call an upstream service *)
(* ================================================================== *)

Module Http.

(** What [requests.get] hands back: a response whose status check
    and JSON decoding may each raise. *)
Record response : Type := mkResponse {
  raise_for_status : outcome unit;
  json : outcome pyval
}.

(** The upstream, as a tool sees it: [requests.get(url, params=...,
    timeout=...)]. *)
Definition upstream : Type :=
  string -> list (string * pyval) -> Z -> outcome response.

End Http.

Module Tools.
Section WithRuntime.
Context {R : Runtime}.
Variable requests_get : Http.upstream.

Import Ops.

Definition get_coordinates_from_city (city_name : string)
  : outcome string :=
  let GEOCODING_API_URL :=
    "https://geocoding-api.open-meteo.com/v1/search" in
  let params :=
    [("name", VStr city_name); ("count", VInt 1);
     ("language", VStr "en"); ("format", VStr "json")] in
  try_except
    (response <- requests_get GEOCODING_API_URL params 30%Z ;;
     _ <- Http.raise_for_status response ;;
     data <- Http.json response ;;
     results <- get data "results" VNone ;;
     if negb (truthy results) then
       Return (Text.dumps_error
                 ("Could not find coordinates for city: " ++ city_name))
     else
       top_result <- getitem results (VInt 0) ;;
       name <- get top_result "name" VNone ;;
       latitude <- get top_result "latitude" VNone ;;
       longitude <- get top_result "longitude" VNone ;;
       country <- get top_result "country" VNone ;;
       let results_data :=
         [("name", name); ("latitude", latitude);
          ("longitude", longitude); ("country", country)] in
       validated_result <- Coordinates.validate results_data ;;
       Return (Coordinates.model_dump_json validated_result))
    [ (Timeout, fun _ =>
         Return (Text.dumps_error "Geocoding API request timed out."));
      (RequestException, fun e =>
         Return (Text.dumps_error
                   ("Error connecting to Geocoding API: " ++ exn_str e)));
      (JSONDecodeError, fun _ =>
         Return (Text.dumps_error
                   "Failed to decode JSON response from Geocoding API."));
      (ValidationError, fun e =>
         Return (Text.dumps_error
                   ("Failed to validate coordinates schema: "
                    ++ exn_errors e)));
      (Exception, fun e =>
         Return (Text.dumps_error
                   ("An unexpected error occurred during coordinate retrieval: "
                    ++ exn_str e))) ].

Definition get_current_weather (latitude longitude : float)
  : outcome string :=
  let WEATHER_API_URL := "https://api.open-meteo.com/v1/forecast" in
  let params :=
    [("latitude", VFloat latitude); ("longitude", VFloat longitude);
     ("current",
      VStr "temperature_2m,relative_humidity_2m,is_day,wind_speed_10m,weather_code");
     ("timezone", VStr "auto"); ("forecast_days", VInt 1)] in
  try_except
    (response <- requests_get WEATHER_API_URL params 30%Z ;;
     _ <- Http.raise_for_status response ;;
     data <- Http.json response ;;
     has_current <- contains "current" data ;;
     if negb has_current then
       Return (Text.dumps_error
                 "No current weather data available for this location.")
     else
       current_data <- getitem data (VStr "current") ;;
       temperature <- get current_data "temperature_2m" VNone ;;
       wind_speed <- get current_data "wind_speed_10m" VNone ;;
       relative_humidity_2m <-
         get current_data "relative_humidity_2m" VNone ;;
       is_day <- get current_data "is_day" VNone ;;
       weather_code <- get current_data "weather_code" VNone ;;
       time <- get current_data "time" VNone ;;
       let weather_data :=
         [("latitude", VFloat latitude); ("longitude", VFloat longitude);
          ("temperature", temperature); ("wind_speed", wind_speed);
          ("relative_humidity_2m", relative_humidity_2m);
          ("is_day", is_day); ("weather_code", weather_code);
          ("time", time)] in
       validated_weather <- CurrentWeather.validate weather_data ;;
       Return (CurrentWeather.model_dump_json validated_weather))
    [ (Timeout, fun _ =>
         Return (Text.dumps_error "Weather API request timed out."));
      (RequestException, fun e =>
         Return (Text.dumps_error
                   ("Error connecting to Weather API: " ++ exn_str e)));
      (JSONDecodeError, fun _ =>
         Return (Text.dumps_error
                   "Failed to decode JSON response from Weather API."));
      (ValidationError, fun e =>
         Return (Text.dumps_error
                   ("Failed to validate weather data schema: "
                    ++ exn_errors e)));
      (Exception, fun e =>
         Return (Text.dumps_error
                   ("An unexpected error occurred during weather retrieval: "
                    ++ exn_str e))) ].

Definition search_wikipedia (query : string) : outcome string :=
  let API_URL := "https://en.wikipedia.org/w/api.php" in
  let params :=
    [("action", VStr "query"); ("format", VStr "json");
     ("titles", VStr query); ("prop", VStr "extracts|info");
     ("exintro", VBool true); ("explaintext", VBool true);
     ("inprop", VStr "url"); ("redirects", VInt 1)] in
  try_except
    (response <- requests_get API_URL params 30%Z ;;
     _ <- Http.raise_for_status response ;;
     data <- Http.json response ;;
     query_part <- get data "query" (VDict []) ;;
     pages <- get query_part "pages" (VDict []) ;;
     if negb (truthy pages) then
       Return (Text.dumps_error "No wikipedia article found for the query")
     else
       page_id <- first pages ;;
       page_data <- getitem pages page_id ;;
       missing <- contains "missing" page_data ;;
       if missing then
         Return (Text.dumps_error "No wikipedia article found the query")
       else
         title <- get page_data "title" VNone ;;
         has_summary <- contains "summary" page_data ;;
         summary <-
           (if has_summary then get page_data "summary" VNone
            else get page_data "extract" VNone) ;;
         url <- get page_data "fullurl" VNone ;;
         let results_data :=
           [("title", title); ("summary", summary); ("url", url)] in
         validated_result <- WikipediaArticle.validate results_data ;;
         Return (WikipediaArticle.model_dump_json validated_result))
    [ (Timeout, fun _ =>
         Return (Text.dumps_error "Wikipedia API request timed out."));
      (RequestException, fun e =>
         Return (Text.dumps_error
                   ("Error connecting to Wikipedia API: " ++ exn_str e)));
      (JSONDecodeError, fun _ =>
         Return (Text.dumps_error
                   "Failed to decode JSON response from Wikipedia API."));
      (ValidationError, fun e =>
         Return (Text.dumps_error
                   ("Failed to validate Wikipedia article schema: "
                    ++ exn_errors e)));
      (Exception, fun e =>
         Return (Text.dumps_error
                   ("An unexpected error occurred during Wikipedia search: "
                    ++ exn_str e))) ].

End WithRuntime.
End Tools.

(* ================================================================== *)
(** * Computations that also read and write interpreter state *)
(* ================================================================== *)

(** [eval] runs arbitrary expressions: besides returning or raising it
    can change what later evaluations see.  A [reply] is what one such
    computation leaves behind; [Beyond] stands for a run this
    development assigns no result to. *)
Module Eff.

Inductive reply (S A : Type) : Type :=
| Val (a : A) (st : S)
| Exc (e : exn) (st : S)
| Beyond.
Arguments Val {S A} a st.
Arguments Exc {S A} e st.
Arguments Beyond {S A}.

Definition comp (S A : Type) : Type := S -> reply S A.

Definition ret {S A} (a : A) : comp S A := fun st => Val a st.
Definition raise {S A} (e : exn) : comp S A := fun st => Exc e st.
Definition beyond {S A} : comp S A := fun _ => Beyond.

Definition bind {S A B} (m : comp S A) (k : A -> comp S B) : comp S B :=
  fun st =>
    match m st with
    | Val a st' => k a st'
    | Exc e st' => Exc e st'
    | Beyond => Beyond
    end.

Definition handler (S A : Type) : Type := (cls * (exn -> comp S A))%type.

Fixpoint dispatch {S A} (hs : list (handler S A)) (e : exn) : comp S A :=
  match hs with
  | [] => raise e
  | (c, h) :: rest => if isinstance e c then h e else dispatch rest e
  end.

Definition try_except {S A} (body : comp S A) (hs : list (handler S A))
  : comp S A :=
  fun st =>
    match body st with
    | Val a st' => Val a st'
    | Exc e st' => dispatch hs e st'
    | Beyond => Beyond
    end.

(** A computation that only returns or raises, run in any state. *)
Definition lift {S A} (o : outcome A) : comp S A :=
  fun st =>
    match o with
    | Return a => Val a st
    | Raise e => Exc e st
    end.

End Eff.

(* ================================================================== *)
(** * The calculator tool *)
(* ================================================================== *)

Module Calculator.
Section WithEvaluator.
Context {S V : Type}.

(** The built-ins [eval] and [str] of the interpreter the tool runs
    in; [eval] is handed the text and sees the interpreter state. *)
Variable eval : string -> Eff.comp S V.
Variable str : V -> Eff.comp S string.

Definition calculate (expression : string) : Eff.comp S string :=
  Eff.try_except
    (Eff.bind (eval expression) (fun result => str result))
    [ (SyntaxError, fun _ =>
         Eff.ret "Error: Invalid mathematical expression.");
      (NameError, fun _ =>
         Eff.ret
           "Error: Invalid input in expression (e.g., non-numeric characters).");
      (Exception, fun e =>
         Eff.ret ("Error during calculation: " ++ exn_str e)) ].

End WithEvaluator.
End Calculator.

(* ================================================================== *)
(** * A fragment of Python's expression language *)
(* ================================================================== *)

(** What the built-in [eval] does, inside the function [calculate] of
    the module [agent.tools], on the expressions made of decimal
    integers, names, the operators [+ - * / // % ** ^], parentheses,
    calls and attribute references.  The fragment follows the language
    reference and CPython 3.11; an input this development does not
    model gets the verdict [Unmodelled], never a guessed result. *)
Module PyExpr.

Inductive verdict (A : Type) : Type :=
| Parsed (a : A)
| Malformed          (* the interpreter raises SyntaxError *)
| Unmodelled.
Arguments Parsed {A} a.
Arguments Malformed {A}.
Arguments Unmodelled {A}.

(** ** Tokens *)
Inductive token : Set :=
| TNum (n : Z) | TName (s : string)
| TPlus | TMinus | TStar | TPow | TSlash | TFloorDiv | TPercent
| TCaret | TLParen | TRParen | TComma | TDot.

Definition is_digit (c : ascii) : bool :=
  let n := nat_of_ascii c in (48 <=? n)%nat && (n <=? 57)%nat.

Definition is_ident_start (c : ascii) : bool :=
  let n := nat_of_ascii c in
  ((97 <=? n)%nat && (n <=? 122)%nat)
  || ((65 <=? n)%nat && (n <=? 90)%nat)
  || (n =? 95)%nat.

Definition keywords : list string :=
  ["False"; "None"; "True"; "and"; "as"; "assert"; "async"; "await";
   "break"; "class"; "continue"; "def"; "del"; "elif"; "else";
   "except"; "finally"; "for"; "from"; "global"; "if"; "import"; "in";
   "is"; "lambda"; "nonlocal"; "not"; "or"; "pass"; "raise"; "return";
   "try"; "while"; "with"; "yield"].

Definition mem (s : string) (l : list string) : bool :=
  existsb (String.eqb s) l.

(** What the tokenizer has started and not yet finished. *)
Inductive pending : Set :=
| Idle
| InNum (digits : nat) (value : Z) (leading_zero : bool)
| InName (name : string)
| AfterStar | AfterSlash | AfterDot.

(** The longest integer literal the interpreter converts. *)
Definition max_str_digits : nat := 4300.

Definition flush (p : pending) : verdict (list token) :=
  match p with
  | Idle => Parsed []
  | InNum n v z =>
      if z && (1 <? n)%nat && negb (v =? 0)%Z then Malformed
      else if (max_str_digits <? n)%nat then Unmodelled
      else Parsed [TNum v]
  | InName s => if mem s keywords then Unmodelled else Parsed [TName s]
  | AfterStar => Parsed [TStar]
  | AfterSlash => Parsed [TSlash]
  | AfterDot => Parsed [TDot]
  end.

Definition idle_step (c : ascii) : verdict (pending * list token) :=
  let n := nat_of_ascii c in
  if (n =? 32)%nat || (n =? 9)%nat then Parsed (Idle, [])
  else if is_digit c then
    Parsed (InNum 1 (Z.of_nat (n - 48)) (n =? 48)%nat, [])
  else if is_ident_start c then Parsed (InName (String c ""), [])
  else if (n =? 43)%nat then Parsed (Idle, [TPlus])
  else if (n =? 45)%nat then Parsed (Idle, [TMinus])
  else if (n =? 42)%nat then Parsed (AfterStar, [])
  else if (n =? 47)%nat then Parsed (AfterSlash, [])
  else if (n =? 37)%nat then Parsed (Idle, [TPercent])
  else if (n =? 94)%nat then Parsed (Idle, [TCaret])
  else if (n =? 40)%nat then Parsed (Idle, [TLParen])
  else if (n =? 41)%nat then Parsed (Idle, [TRParen])
  else if (n =? 44)%nat then Parsed (Idle, [TComma])
  else if (n =? 46)%nat then Parsed (AfterDot, [])
  else Unmodelled.

(** Finish what is pending, then read [c] afresh. *)
Definition flush_then (p : pending) (c : ascii)
  : verdict (pending * list token) :=
  match flush p with
  | Parsed ts =>
      match idle_step c with
      | Parsed (p', ts') => Parsed (p', (ts ++ ts')%list)
      | Malformed => Malformed
      | Unmodelled => Unmodelled
      end
  | Malformed => Malformed
  | Unmodelled => Unmodelled
  end.

Definition step (p : pending) (c : ascii)
  : verdict (pending * list token) :=
  let n := nat_of_ascii c in
  match p with
  | Idle => idle_step c
  | InNum k v z =>
      if is_digit c then
        Parsed (InNum (S k) (v * 10 + Z.of_nat (n - 48)) z, [])
      else if is_ident_start c || (n =? 46)%nat then Unmodelled
      else flush_then p c
  | InName s =>
      if is_ident_start c || is_digit c then
        Parsed (InName (s ++ String c ""), [])
      else flush_then p c
  | AfterStar =>
      if (n =? 42)%nat then Parsed (Idle, [TPow]) else flush_then p c
  | AfterSlash =>
      if (n =? 47)%nat then Parsed (Idle, [TFloorDiv]) else flush_then p c
  | AfterDot =>
      if is_digit c || (n =? 46)%nat then Unmodelled else flush_then p c
  end.

Fixpoint lex_from (p : pending) (done : list token) (s : string)
  : verdict (list token) :=
  match s with
  | EmptyString =>
      match flush p with
      | Parsed ts => Parsed (done ++ ts)%list
      | Malformed => Malformed
      | Unmodelled => Unmodelled
      end
  | String c rest =>
      match step p c with
      | Parsed (p', ts) => lex_from p' (done ++ ts)%list rest
      | Malformed => Malformed
      | Unmodelled => Unmodelled
      end
  end.

Definition lex (s : string) : verdict (list token) := lex_from Idle [] s.

(** ** Syntax *)
Inductive unop : Set := UPlus | UMinus.
Inductive binop : Set :=
| Add | Sub | Mul | Div | FloorDiv | Mod | Pow | Xor.

#[warnings="-register-all"]
Inductive expr : Set :=
| Num (n : Z)
| Name (s : string)
| Unary (op : unop) (e : expr)
| Binary (op : binop) (l r : expr)
| Call (f : expr) (args : list expr)
| Attribute (e : expr) (name : string).

(** The binary operators of each precedence level, loosest first:
    [^], then [+ -], then [* / // %]. *)
Definition binop_at (level : nat) (t : token) : option binop :=
  match level, t with
  | 0%nat, TCaret => Some Xor
  | 1%nat, TPlus => Some Add
  | 1%nat, TMinus => Some Sub
  | 2%nat, TStar => Some Mul
  | 2%nat, TSlash => Some Div
  | 2%nat, TFloorDiv => Some FloorDiv
  | 2%nat, TPercent => Some Mod
  | _, _ => None
  end.

(** ** The parser

    One function per rule of the grammar; [fuel] bounds the depth of
    the descent. *)
Definition parse (A : Type) : Type := verdict (A * list token).

Fixpoint parse_level (fuel level : nat) (ts : list token)
  {struct fuel} : parse expr :=
  match fuel with
  | O => Unmodelled
  | S f =>
      if (3 <=? level)%nat then parse_factor f ts
      else
        match parse_level f (S level) ts with
        | Parsed (lhs, rest) => level_rest f level lhs rest
        | other => other
        end
  end

with level_rest (fuel level : nat) (lhs : expr) (ts : list token)
  {struct fuel} : parse expr :=
  match fuel with
  | O => Unmodelled
  | S f =>
      match ts with
      | t :: rest =>
          match binop_at level t with
          | Some op =>
              match parse_level f (S level) rest with
              | Parsed (rhs, rest') =>
                  level_rest f level (Binary op lhs rhs) rest'
              | other => other
              end
          | None => Parsed (lhs, ts)
          end
      | [] => Parsed (lhs, [])
      end
  end

(** factor: a sign applied to a factor, or a power *)
with parse_factor (fuel : nat) (ts : list token) {struct fuel}
  : parse expr :=
  match fuel with
  | O => Unmodelled
  | S f =>
      match ts with
      | TPlus :: rest =>
          match parse_factor f rest with
          | Parsed (e, rest') => Parsed (Unary UPlus e, rest')
          | other => other
          end
      | TMinus :: rest =>
          match parse_factor f rest with
          | Parsed (e, rest') => Parsed (Unary UMinus e, rest')
          | other => other
          end
      | _ => parse_power f ts
      end
  end

(** power: a primary, optionally raised to a factor *)
with parse_power (fuel : nat) (ts : list token) {struct fuel}
  : parse expr :=
  match fuel with
  | O => Unmodelled
  | S f =>
      match parse_atom f ts with
      | Parsed (a, rest) =>
          match trailers f a rest with
          | Parsed (p, TPow :: rest') =>
              match parse_factor f rest' with
              | Parsed (e, rest'') => Parsed (Binary Pow p e, rest'')
              | other => other
              end
          | other => other
          end
      | other => other
      end
  end

(** atom: a number, a name, or an expression in parentheses; a
    tuple display or a starred item is outside the fragment *)
with parse_atom (fuel : nat) (ts : list token) {struct fuel}
  : parse expr :=
  match fuel with
  | O => Unmodelled
  | S f =>
      match ts with
      | TNum n :: rest => Parsed (Num n, rest)
      | TName s :: rest => Parsed (Name s, rest)
      | TLParen :: TRParen :: _ => Unmodelled
      | TLParen :: rest =>
          match parse_level f 0 rest with
          | Parsed (e, TRParen :: rest') => Parsed (e, rest')
          | Parsed (_, TComma :: _) => Unmodelled
          | Parsed (_, _) => Malformed
          | other => other
          end
      | TStar :: _ | TPow :: _ => Unmodelled
      | _ => Malformed
      end
  end

(** the calls and attribute references that follow an atom *)
with trailers (fuel : nat) (e : expr) (ts : list token) {struct fuel}
  : parse expr :=
  match fuel with
  | O => Unmodelled
  | S f =>
      match ts with
      | TLParen :: rest =>
          match parse_args f rest with
          | Parsed (args, rest') => trailers f (Call e args) rest'
          | Malformed => Malformed
          | Unmodelled => Unmodelled
          end
      | TDot :: TName s :: rest => trailers f (Attribute e s) rest
      | TDot :: _ => Malformed
      | _ => Parsed (e, ts)
      end
  end

(** the positional arguments of a call, up to its closing
    parenthesis; a trailing comma is allowed *)
with parse_args (fuel : nat) (ts : list token) {struct fuel}
  : parse (list expr) :=
  match fuel with
  | O => Unmodelled
  | S f =>
      match ts with
      | TRParen :: rest => Parsed ([], rest)
      | _ =>
          match parse_level f 0 ts with
          | Parsed (a, TRParen :: rest) => Parsed ([a], rest)
          | Parsed (a, TComma :: rest) =>
              match parse_args f rest with
              | Parsed (more, rest') => Parsed (a :: more, rest')
              | other => other
              end
          | Parsed (_, _) => Malformed
          | Malformed => Malformed
          | Unmodelled => Unmodelled
          end
      end
  end.

(** The longest token sequence the fragment covers; it keeps every
    input clear of the interpreter's nesting and recursion limits. *)
Definition max_tokens : nat := 100.

(** A whole input in [eval] mode: one expression, then the end. *)
Definition parse_expression (s : string) : verdict expr :=
  match lex s with
  | Parsed ts =>
      if (max_tokens <? List.length ts)%nat then Unmodelled
      else
        match parse_level (10 * (List.length ts + 1)) 0 ts with
        | Parsed (e, []) => Parsed e
        | Parsed (_, TComma :: _) => Unmodelled
        | Parsed (_, _) => Malformed
        | Malformed => Malformed
        | Unmodelled => Unmodelled
        end
  | Malformed => Malformed
  | Unmodelled => Unmodelled
  end.

(** ** Values and the state an evaluation can reach *)
Inductive builtin : Set :=
| BGlobals           (* globals *)
| BExit.             (* exit and quit, installed by the site module *)

Inductive method : Set := MPop | MSetdefault.

Inductive value : Type :=
| Int (i : Z)
| NoneV
| Str (s : string)
| Builtin (b : builtin)
| Namespace                (* the dict [globals()] returns *)
| Method (m : method).     (* a bound method of that dict *)

(** The entries with an integer key that evaluations have put into
    the module's global namespace; the module itself defines none. *)
Definition store : Type := list (Z * value).

Fixpoint find (k : Z) (st : store) : option value :=
  match st with
  | [] => None
  | (k', v) :: rest => if (k' =? k)%Z then Some v else find k rest
  end.

Fixpoint remove (k : Z) (st : store) : store :=
  match st with
  | [] => []
  | (k', v) :: rest =>
      if (k' =? k)%Z then rest else (k', v) :: remove k rest
  end.

(** ** Names

    [eval] is called without namespaces, so a name is looked up in
    the locals of [calculate], then in the globals of the module,
    then among the built-ins. *)
Definition module_globals : list string :=
  ["T"; "json"; "requests"; "tool"; "BaseModel"; "Field";
   "ValidationError"; "WikipediaArticle"; "Coordinates";
   "CurrentWeather"; "get_coordinates_from_city"; "get_current_weather";
   "search_wikipedia"; "calculate"].

Definition builtin_names : list string :=
  ["ArithmeticError"; "AssertionError"; "AttributeError";
   "BaseException"; "BaseExceptionGroup"; "BlockingIOError";
   "BrokenPipeError"; "BufferError"; "BytesWarning";
   "ChildProcessError"; "ConnectionAbortedError"; "ConnectionError";
   "ConnectionRefusedError"; "ConnectionResetError";
   "DeprecationWarning"; "EOFError"; "Ellipsis"; "EncodingWarning";
   "EnvironmentError"; "Exception"; "ExceptionGroup";
   "FileExistsError"; "FileNotFoundError"; "FloatingPointError";
   "FutureWarning"; "GeneratorExit"; "IOError"; "ImportError";
   "ImportWarning"; "IndentationError"; "IndexError";
   "InterruptedError"; "IsADirectoryError"; "KeyError";
   "KeyboardInterrupt"; "LookupError"; "MemoryError";
   "ModuleNotFoundError"; "NameError"; "NotADirectoryError";
   "NotImplemented"; "NotImplementedError"; "OSError"; "OverflowError";
   "PendingDeprecationWarning"; "PermissionError"; "ProcessLookupError";
   "RecursionError"; "ReferenceError"; "ResourceWarning";
   "RuntimeError"; "RuntimeWarning"; "StopAsyncIteration";
   "StopIteration"; "SyntaxError"; "SyntaxWarning"; "SystemError";
   "SystemExit"; "TabError"; "TimeoutError"; "TypeError";
   "UnboundLocalError"; "UnicodeDecodeError"; "UnicodeEncodeError";
   "UnicodeError"; "UnicodeTranslateError"; "UnicodeWarning";
   "UserWarning"; "ValueError"; "Warning"; "ZeroDivisionError";
   "abs"; "aiter"; "all"; "anext"; "any"; "ascii"; "bin"; "bool";
   "breakpoint"; "bytearray"; "bytes"; "callable"; "chr"; "classmethod";
   "compile"; "complex"; "copyright"; "credits"; "delattr"; "dict";
   "dir"; "divmod"; "enumerate"; "eval"; "exec"; "exit"; "filter";
   "float"; "format"; "frozenset"; "getattr"; "globals"; "hasattr";
   "hash"; "help"; "hex"; "id"; "input"; "int"; "isinstance";
   "issubclass"; "iter"; "len"; "license"; "list"; "locals"; "map";
   "max"; "memoryview"; "min"; "next"; "object"; "oct"; "open"; "ord";
   "pow"; "print"; "property"; "quit"; "range"; "repr"; "reversed";
   "round"; "set"; "setattr"; "slice"; "sorted"; "staticmethod"; "str";
   "sum"; "super"; "tuple"; "type"; "vars"; "zip"].

Definition name_error (name : string) : exn :=
  mkExn NameError ("name '" ++ name ++ "' is not defined") "".

Definition resolve (expression name : string) : Eff.comp store value :=
  if String.eqb name "expression" then Eff.ret (Str expression)
  else if prefix "__" name || mem name module_globals then Eff.beyond
  else if String.eqb name "globals" then Eff.ret (Builtin BGlobals)
  else if String.eqb name "exit" || String.eqb name "quit" then
    Eff.ret (Builtin BExit)
  else if mem name builtin_names then Eff.beyond
  else Eff.raise (name_error name).

(** ** Arithmetic on ints *)
Definition zero_division (msg : string) : exn :=
  mkExn ZeroDivisionError msg "".

(** The largest exponent the fragment raises an int to. *)
Definition max_exponent : Z := 10000.

Definition arith (op : binop) (a b : Z) : Eff.comp store value :=
  match op with
  | Add => Eff.ret (Int (a + b))
  | Sub => Eff.ret (Int (a - b))
  | Mul => Eff.ret (Int (a * b))
  | Xor => Eff.ret (Int (Z.lxor a b))
  | FloorDiv =>
      if (b =? 0)%Z then
        Eff.raise (zero_division "integer division or modulo by zero")
      else Eff.ret (Int (a / b))
  | Mod =>
      if (b =? 0)%Z then
        Eff.raise (zero_division "integer modulo by zero")
      else Eff.ret (Int (a mod b))
  | Div =>
      (* a nonzero divisor gives a float *)
      if (b =? 0)%Z then Eff.raise (zero_division "division by zero")
      else Eff.beyond
  | Pow =>
      (* a negative exponent gives a float *)
      if (b <? 0)%Z || (max_exponent <? b)%Z then Eff.beyond
      else Eff.ret (Int (a ^ b))
  end.

Definition binary (op : binop) (l r : value) : Eff.comp store value :=
  match l, r with
  | Int a, Int b => arith op a b
  | _, _ => Eff.beyond
  end.

Definition unary (op : unop) (v : value) : Eff.comp store value :=
  match op, v with
  | UPlus, Int a => Eff.ret (Int a)
  | UMinus, Int a => Eff.ret (Int (- a))
  | _, _ => Eff.beyond
  end.

(** ** Attribute references and calls *)
Definition getattr (v : value) (name : string) : Eff.comp store value :=
  match v with
  | Namespace =>
      if String.eqb name "pop" then Eff.ret (Method MPop)
      else if String.eqb name "setdefault" then Eff.ret (Method MSetdefault)
      else Eff.beyond
  | _ => Eff.beyond
  end.

Definition system_exit (code : string) : exn := mkExn SystemExit code "".
Definition key_error (k : Z) : exn := mkExn KeyError (Text.decimal k) "".

(** [d.pop(k)], [d.pop(k, default)] on the global namespace *)
Definition dict_pop (k : Z) (default : option value)
  : Eff.comp store value :=
  fun st =>
    match find k st, default with
    | Some v, _ => Eff.Val v (remove k st)
    | None, Some d => Eff.Val d st
    | None, None => Eff.Exc (key_error k) st
    end.

(** [d.setdefault(k)], [d.setdefault(k, default)] *)
Definition dict_setdefault (k : Z) (default : value)
  : Eff.comp store value :=
  fun st =>
    match find k st with
    | Some v => Eff.Val v st
    | None => Eff.Val default ((k, default) :: st)
    end.

Definition call (f : value) (args : list value) : Eff.comp store value :=
  match f, args with
  | Builtin BGlobals, [] => Eff.ret Namespace
  | Builtin BExit, [] => Eff.raise (system_exit "None")
  | Builtin BExit, [Int code] => Eff.raise (system_exit (Text.decimal code))
  | Method MPop, [Int k] => dict_pop k None
  | Method MPop, [Int k; d] => dict_pop k (Some d)
  | Method MSetdefault, [Int k] => dict_setdefault k NoneV
  | Method MSetdefault, [Int k; d] => dict_setdefault k d
  | _, _ => Eff.beyond
  end.

(** ** Evaluation: operands left to right, the callee before its
    arguments *)
Fixpoint eval_expr (expression : string) (e : expr)
  : Eff.comp store value :=
  match e with
  | Num n => Eff.ret (Int n)
  | Name s => resolve expression s
  | Unary op a =>
      Eff.bind (eval_expr expression a) (fun v => unary op v)
  | Binary op l r =>
      Eff.bind (eval_expr expression l) (fun a =>
      Eff.bind (eval_expr expression r) (fun b => binary op a b))
  | Call f args =>
      Eff.bind (eval_expr expression f) (fun fv =>
      Eff.bind
        ((fix eval_args (l : list expr) : Eff.comp store (list value) :=
            match l with
            | [] => Eff.ret []
            | a :: rest =>
                Eff.bind (eval_expr expression a) (fun v =>
                Eff.bind (eval_args rest) (fun vs => Eff.ret (v :: vs)))
            end) args)
        (fun vs => call fv vs))
  | Attribute a name =>
      Eff.bind (eval_expr expression a) (fun v => getattr v name)
  end.

Definition syntax_error : exn := mkExn SyntaxError "invalid syntax" "".

(** [eval(expression)] as [calculate] calls it *)
Definition eval (expression : string) : Eff.comp store value :=
  match parse_expression expression with
  | Parsed e => eval_expr expression e
  | Malformed => Eff.raise syntax_error
  | Unmodelled => Eff.beyond
  end.

Definition digits (i : Z) : nat :=
  String.length (Text.decimal (Z.abs i)).

(** [str(v)]; an int longer than the conversion limit is outside the
    fragment. *)
Definition str (v : value) : Eff.comp store string :=
  match v with
  | Int i =>
      if (max_str_digits <? digits i)%nat then Eff.beyond
      else Eff.ret (Text.decimal i)
  | NoneV => Eff.ret "None"
  | Str s => Eff.ret s
  | Builtin _ | Namespace | Method _ => Eff.beyond
  end.

(** The calculator tool on this interpreter. *)
Definition calculate : string -> Eff.comp store string :=
  Calculator.calculate eval str.

End PyExpr.

(* ================================================================== *)
(** * The control loop *)
(* ================================================================== *)

Module Agent.

(** A tool request of the model: the tool's name, its arguments and
    the id the answer must quote. *)
Record tool_call : Type := mkCall {
  call_name : string;
  call_args : list (string * pyval);
  call_id : string
}.

Inductive message : Type :=
| HumanMessage (content : string)
| AIMessage (content : string) (tool_calls : list tool_call)
| ToolMessage (content : string) (name : string) (tool_call_id : string).

Definition content (m : message) : string :=
  match m with
  | HumanMessage c | AIMessage c _ | ToolMessage c _ _ => c
  end.

(** The requests a message carries; only a model message has any. *)
Definition tool_calls (m : message) : list tool_call :=
  match m with
  | AIMessage _ calls => calls
  | _ => []
  end.

(** [AgentState]: the messages, in order.  The reducer
    [add_messages] appends an update to them. *)
Definition AgentState : Type := list message.

Definition add_messages (state update : AgentState) : AgentState :=
  (state ++ update)%list.

(** [messages[-1]] *)
Definition last_message (messages : list message) : option message :=
  List.last (map Some messages) None.

(** One item of the stream: the node that ran and the update it
    returned, or under the key [__end__] the final state. *)
Definition chunk : Type := (string * list message)%type.

Inductive route : Set := ToTools | END.

Inductive status : Type :=
| Finished (final : AgentState)
| LimitReached.

Section WithModel.
Context {R : Runtime}.

(** The model with the tools bound: from the messages so far to its
    answer and its tool requests. *)
Variable llm_with_tools : list message -> string * list tool_call.

(** What running one requested tool returns. *)
Variable run_tool : tool_call -> string.

(** Whether the compiled graph ends its stream with the final state
    under [__end__], and its bound on the number of node runs. *)
Variable emits_end : bool.
Variable recursion_limit : nat.

(** [LLMAgent._call_model] *)
Definition call_model (state : AgentState) : list message :=
  let messages := state in
  let '(text, calls) := llm_with_tools messages in
  [AIMessage text calls].

(** [LLMAgent._should_continue] *)
Definition should_continue (state : AgentState) : route :=
  match last_message state with
  | Some last =>
      match tool_calls last with
      | _ :: _ => ToTools
      | [] => END
      end
  | None => END
  end.

(** The prebuilt tool node: it answers every request of the last
    message, in the order of the requests. *)
Definition answer (c : tool_call) : message :=
  ToolMessage (run_tool c) (call_name c) (call_id c).

Definition tool_node (state : AgentState) : list message :=
  match last_message state with
  | Some last => map answer (tool_calls last)
  | None => []
  end.

(** The graph [_build_workflow] compiles: entry at [agent]; after
    [agent] the conditional edge; after [tools] back to [agent].
    [astream] yields one chunk per node run. *)
Fixpoint run_graph (steps : nat) (state : AgentState)
  : list chunk * status :=
  match steps with
  | O => ([], LimitReached)
  | S n =>
      let update := call_model state in
      let state1 := add_messages state update in
      match should_continue state1 with
      | END =>
          (("agent", update)
             :: (if emits_end then [("__end__", state1)] else []),
           Finished state1)
      | ToTools =>
          match n with
          | O => ([("agent", update)], LimitReached)
          | S n' =>
              let results := tool_node state1 in
              let state2 := add_messages state1 results in
              let '(rest, st) := run_graph n' state2 in
              (("agent", update) :: ("tools", results) :: rest, st)
          end
      end
  end.

Definition astream (inputs : AgentState) : list chunk * status :=
  run_graph recursion_limit inputs.

Definition graph_recursion_error : exn :=
  mkExn GraphRecursionError "Recursion limit reached" "".

(** [LLMAgent.stream_query]: every chunk, as the graph yields it. *)
Definition stream_query (query : string) : list chunk * status :=
  let inputs := [HumanMessage query] in
  astream inputs.

(** [s[key]] for a chunk *)
Definition chunk_get (s : chunk) (key : string) : outcome (list message) :=
  if String.eqb (fst s) key then Return (snd s)
  else Ops.raise_fault (MissingKey (VStr key)).

Definition last_of {A} (kind : pytype) (l : list A) : outcome A :=
  match List.last (map Some l) None with
  | Some a => Return a
  | None => Ops.raise_fault (IndexOutOfRange kind)
  end.

(** [LLMAgent.run_query] *)
Definition run_query (query : string) : outcome string :=
  let inputs := [HumanMessage query] in
  let '(stream, st) := astream inputs in
  let full_response :=
    filter (fun s => negb (String.eqb (fst s) "__end__")) stream in
  match st with
  | LimitReached => Raise graph_recursion_error
  | Finished _ =>
      final_state <- last_of TList full_response ;;
      messages <- chunk_get final_state "agent" ;;
      final_message <- last_of TList messages ;;
      Return (content final_message)
  end.

(** ** The transcript read as the specification reads it *)

(** The requests still waiting for an answer after the messages
    [tr], starting from the waiting requests [open]: a model message
    adds its requests, a tool message answers the first waiting
    request with its id and name. *)
Definition same_call (id name : string) (c : tool_call) : bool :=
  String.eqb (call_id c) id && String.eqb (call_name c) name.

Fixpoint close (id name : string) (open : list tool_call)
  : list tool_call :=
  match open with
  | [] => []
  | c :: rest =>
      if same_call id name c then rest else c :: close id name rest
  end.

Fixpoint unanswered_from (open : list tool_call) (tr : list message)
  : list tool_call :=
  match tr with
  | [] => open
  | AIMessage _ calls :: rest => unanswered_from (open ++ calls) rest
  | ToolMessage _ name id :: rest =>
      unanswered_from (close id name open) rest
  | HumanMessage _ :: rest => unanswered_from open rest
  end.

Definition unanswered (tr : list message) : list tool_call :=
  unanswered_from [] tr.

(** The transcript after [n] complete rounds of asking the model and
    running the tools it requested. *)
Fixpoint after_rounds (n : nat) (state : AgentState) : AgentState :=
  match n with
  | O => state
  | S k =>
      let state1 := add_messages state (call_model state) in
      after_rounds k (add_messages state1 (tool_node state1))
  end.

(** The requests of the model's response to a transcript. *)
Definition requests (state : AgentState) : list tool_call :=
  snd (llm_with_tools state).

(** The terminal answer as the streaming variant shows it: the
    content of the last message of the last chunk. *)
Definition terminal_answer (stream : list chunk) : option string :=
  match List.last (map Some stream) None with
  | Some s =>
      match last_message (snd s) with
      | Some m => Some (content m)
      | None => None
      end
  | None => None
  end.

(** Every message the stream shows, in order, the final state
    aside. *)
Definition shown (stream : list chunk) : list message :=
  flat_map (fun s => if String.eqb (fst s) "__end__" then [] else snd s)
           stream.

End WithModel.
End Agent.

(* ================================================================== *)
(** * The four tools side by side *)
(* ================================================================== *)

Module Toolbox.

(** A tool invocation: the tool and its arguments. *)
Inductive invocation : Type :=
| GetCoordinatesFromCity (city_name : string)
| GetCurrentWeather (latitude longitude : float)
| SearchWikipedia (query : string)
| Calculate (expression : string).

(** What a tool can see when it runs: the upstream services, which
    answer a request the same way every time, and the state of the
    interpreter. *)
Record world (S : Type) : Type := mkWorld {
  upstream : Http.upstream;
  interpreter : S
}.
Arguments mkWorld {S} upstream interpreter.
Arguments upstream {S} w.
Arguments interpreter {S} w.

Section WithRuntime.
Context {R : Runtime} {S V : Type}.
Variable eval : string -> Eff.comp S V.
Variable str : V -> Eff.comp S string.

(** Run a computation on the interpreter inside a world. *)
Definition on_interpreter {A} (m : Eff.comp S A) : Eff.comp (world S) A :=
  fun w =>
    match m (interpreter w) with
    | Eff.Val a st => Eff.Val a (mkWorld (upstream w) st)
    | Eff.Exc e st => Eff.Exc e (mkWorld (upstream w) st)
    | Eff.Beyond => Eff.Beyond
    end.

Definition invoke (i : invocation) : Eff.comp (world S) string :=
  fun w =>
    match i with
    | GetCoordinatesFromCity city_name =>
        Eff.lift (Tools.get_coordinates_from_city (upstream w) city_name) w
    | GetCurrentWeather latitude longitude =>
        Eff.lift (Tools.get_current_weather (upstream w) latitude longitude)
                 w
    | SearchWikipedia query =>
        Eff.lift (Tools.search_wikipedia (upstream w) query) w
    | Calculate expression =>
        on_interpreter (Calculator.calculate eval str expression) w
    end.

Definition calls_upstream (i : invocation) : bool :=
  match i with
  | Calculate _ => false
  | _ => true
  end.

End WithRuntime.
End Toolbox.

(* ================================================================== *)
(** * The narrow arithmetic grammar of the specification *)
(* ================================================================== *)

(** Numbers, the operators [+ - * / ^], and parentheses: the inputs a
    dedicated arithmetic evaluator would accept.  This recogniser is
    written from the specification; the code has no counterpart. *)
Module ArithGrammar.

Inductive symbol : Set := SNumber | SOperator (c : ascii) | SOpen | SClose.

Definition is_number_char (c : ascii) : bool :=
  PyExpr.is_digit c || (nat_of_ascii c =? 46)%nat.

Definition is_operator (c : ascii) : bool :=
  let n := nat_of_ascii c in
  (n =? 43)%nat || (n =? 45)%nat || (n =? 42)%nat || (n =? 47)%nat
  || (n =? 94)%nat.

(** Split into symbols; [in_number] tells that the previous
    character belonged to a number.  [None]: a character the grammar
    does not have. *)
Fixpoint symbols (in_number : bool) (s : string) : option (list symbol) :=
  match s with
  | EmptyString => Some []
  | String c rest =>
      if is_number_char c then
        match symbols true rest with
        | Some l => Some (if in_number then l else SNumber :: l)
        | None => None
        end
      else
        let after :=
          symbols false rest in
        if (nat_of_ascii c =? 32)%nat then after
        else
          match after with
          | Some l =>
              if is_operator c then Some (SOperator c :: l)
              else if (nat_of_ascii c =? 40)%nat then Some (SOpen :: l)
              else if (nat_of_ascii c =? 41)%nat then Some (SClose :: l)
              else None
          | None => None
          end
  end.

Definition is_sign (c : ascii) : bool :=
  let n := nat_of_ascii c in (n =? 43)%nat || (n =? 45)%nat.

(** Operands and operators alternate and the parentheses balance. *)
Fixpoint well_formed (want_operand : bool) (depth : nat) (l : list symbol)
  : bool :=
  match l with
  | [] => negb want_operand && (depth =? 0)%nat
  | SNumber :: rest => want_operand && well_formed false depth rest
  | SOpen :: rest => want_operand && well_formed true (S depth) rest
  | SClose :: rest =>
      negb want_operand &&
      match depth with
      | O => false
      | S d => well_formed false d rest
      end
  | SOperator c :: rest =>
      if want_operand then is_sign c && well_formed true depth rest
      else well_formed true depth rest
  end.

Definition in_grammar (s : string) : bool :=
  match symbols false s with
  | Some l => well_formed true 0 l
  | None => false
  end.

(** The error strings of the calculator all begin with [Error]. *)
Definition is_error_string (s : string) : bool := prefix "Error" s.

End ArithGrammar.

(* ================================================================== *)
(** * One runtime, to run the tools on concrete inputs *)
(* ================================================================== *)

Module Reference.

Definition quoted (s : string) : string := "'" ++ s ++ "'".

(** Validators that accept a value of the declared type as it is;
    the conversions of pydantic's lax mode are not part of them. *)
Definition exact_float (v : pyval) : option float :=
  match v with VFloat x => Some x | _ => None end.
Definition exact_int (v : pyval) : option Z :=
  match v with VInt i => Some i | _ => None end.
Definition exact_str (v : pyval) : option string :=
  match v with VStr s => Some s | _ => None end.

Definition report (errs : list (string * pyval)) : string :=
  "[" ++ Text.join_members (map (fun e => quoted (fst e)) errs) ++ "]".

(** A float is printed by its decimal expansion, which is finite and,
    when it has at most 15 significant digits, the shortest text that
    reads back as the same float. *)
Fixpoint strip_zeros (rev_digits : string) : string :=
  match rev_digits with
  | String c rest =>
      if (nat_of_ascii c =? 48)%nat then strip_zeros rest else rev_digits
  | EmptyString => EmptyString
  end.

Fixpoint rev_string (s acc : string) : string :=
  match s with
  | EmptyString => acc
  | String c rest => rev_string rest (String c acc)
  end.

Fixpoint zeros (n : nat) : string :=
  match n with O => "" | S k => String "0" (zeros k) end.

Definition expansion (m : positive) (e : Z) : string :=
  if (0 <=? e)%Z then Text.decimal (Z.pos m * 2 ^ e) ++ ".0"
  else
    let k := Z.to_nat (- e) in
    let ds := Text.decimal (Z.pos m * 5 ^ (- e)) in
    let padded := zeros (S k - String.length ds) ++ ds in
    let n := String.length padded in
    let whole := substring 0 (n - k) padded in
    let frac := substring (n - k) k padded in
    let frac' := rev_string (strip_zeros (rev_string frac "")) "" in
    whole ++ "." ++ (if String.eqb frac' "" then "0" else frac').

Definition print_float (x : float) : string :=
  match Prim2SF x with
  | S754_zero s => if s then "-0.0" else "0.0"
  | S754_finite s m e => (if s then "-" else "") ++ expansion m e
  | S754_infinity _ | S754_nan => "null"
  end.

(** The wording of CPython 3.11; a missing key is shown by its [repr],
    here without the escapes a string with quotes or control
    characters would need. *)
Definition wording (f : fault) : string :=
  match f with
  | NoAttribute t attr =>
      quoted (type_name t) ++ " object has no attribute " ++ quoted attr
  | NotSubscriptable t =>
      quoted (type_name t) ++ " object is not subscriptable"
  | BadIndexType TStr key =>
      "string indices must be integers, not " ++ quoted (type_name key)
  | BadIndexType _ key =>
      "list indices must be integers or slices, not " ++ type_name key
  | IndexOutOfRange TStr => "string index out of range"
  | IndexOutOfRange _ => "list index out of range"
  | MissingKey (VInt i) => Text.decimal i
  | MissingKey (VStr s) => quoted s
  | MissingKey (VBool true) => "True"
  | MissingKey (VBool false) => "False"
  | MissingKey (VFloat x) => print_float x
  | MissingKey VNone => "None"
  | MissingKey (VList _) | MissingKey (VDict _) => ""  (* unhashable *)
  | Unhashable t => "unhashable type: " ++ quoted (type_name t)
  | NotIterable t => quoted (type_name t) ++ " object is not iterable"
  | NotAContainer t =>
      "argument of type " ++ quoted (type_name t) ++ " is not iterable"
  | Exhausted => ""
  end.

#[export] Instance runtime : Runtime := {|
  describe := wording;
  float_validator := exact_float;
  int_validator := exact_int;
  str_validator := exact_str;
  errors_repr := report;
  errors_str := report;
  float_json := print_float;
  float_accepts_float := fun _ => eq_refl;
  float_rejects_None := eq_refl;
  int_accepts_int := fun _ => eq_refl;
  int_rejects_None := eq_refl;
  str_accepts_str := fun _ => eq_refl;
  str_rejects_None := eq_refl
|}.

End Reference.

(* ================================================================== *)
(** * Properties of the tools *)
(* ================================================================== *)

Import Ops.

(** The upstream answers the request [(url, params)] with a successful
    status and the decoded document [data]. *)
Definition answers (up : Http.upstream) (url : string)
  (params : list (string * pyval)) (data : pyval) : Prop :=
  exists r, up url params 30%Z = Return r
            /\ Http.raise_for_status r = Return tt
            /\ Http.json r = Return data.

(** An upstream that answers every request with [data]. *)
Definition serving (data : pyval) : Http.upstream :=
  fun _ _ _ => Return (Http.mkResponse (Return tt) (Return data)).

Lemma serving_answers data url params : answers (serving data) url params data.
Proof. exists (Http.mkResponse (Return tt) (Return data)). auto. Qed.

Definition geocoding_url : string :=
  "https://geocoding-api.open-meteo.com/v1/search".

Definition geocoding_params (city_name : string) : list (string * pyval) :=
  [("name", VStr city_name); ("count", VInt 1);
   ("language", VStr "en"); ("format", VStr "json")].

Definition wikipedia_url : string := "https://en.wikipedia.org/w/api.php".

Definition wikipedia_params (query : string) : list (string * pyval) :=
  [("action", VStr "query"); ("format", VStr "json");
   ("titles", VStr query); ("prop", VStr "extracts|info");
   ("exintro", VBool true); ("explaintext", VBool true);
   ("inprop", VStr "url"); ("redirects", VInt 1)].

Definition weather_url : string := "https://api.open-meteo.com/v1/forecast".

Definition weather_params (latitude longitude : float)
  : list (string * pyval) :=
  [("latitude", VFloat latitude); ("longitude", VFloat longitude);
   ("current",
    VStr "temperature_2m,relative_humidity_2m,is_day,wind_speed_10m,weather_code");
   ("timezone", VStr "auto"); ("forecast_days", VInt 1)].

(** The geocoding service found nothing: its document has no
    [results], or an empty list of them. *)
Inductive zero_matches : pyval -> Prop :=
| results_absent entries :
    lookup "results" entries = None -> zero_matches (VDict entries)
| results_empty entries :
    lookup "results" entries = Some (VList []) ->
    zero_matches (VDict entries).

(** The encyclopedia has no article: no page entries at all, or a
    first page marked [missing]. *)
Inductive no_article : pyval -> Prop :=
| query_absent entries :
    lookup "query" entries = None -> no_article (VDict entries)
| pages_absent entries q :
    lookup "query" entries = Some (VDict q) ->
    lookup "pages" q = None -> no_article (VDict entries)
| pages_empty entries q :
    lookup "query" entries = Some (VDict q) ->
    lookup "pages" q = Some (VDict []) -> no_article (VDict entries)
| page_missing entries q id page rest :
    lookup "query" entries = Some (VDict q) ->
    lookup "pages" q = Some (VDict ((id, VDict page) :: rest)) ->
    has_key "missing" page = true -> no_article (VDict entries).

Create HintDb tools discriminated.

Lemma prefix_append (p s : string) : prefix p (p ++ s) = true.
Proof.
  induction p as [|c p IH]; simpl.
  - destruct s; reflexivity.
  - destruct (ascii_dec c c) as [_|n]; [exact IH | contradiction].
Qed.

Lemma contains_prefix (p s : string) : Text.contains p (p ++ s) = true.
Proof.
  pose proof (prefix_append p s) as H.
  destruct (p ++ s); cbn [Text.contains]; rewrite H; reflexivity.
Qed.

(** Rewriting a tool body along an upstream that answers. *)
Ltac upstream_answers H :=
  destruct H as (?r & ?Hget & ?Hstatus & ?Hjson);
  match goal with
  | Hg : _ = Return ?r, Hs : Http.raise_for_status ?r = _,
    Hj : Http.json ?r = _ |- _ =>
      rewrite Hg; cbn [Py.bind]; rewrite Hs; cbn [Py.bind]; rewrite Hj;
      cbn [Py.bind]
  end.

(** C5: when the geocoding service returns zero matches, the tool
    returns the error payload whose message is "Could not find
    coordinates for city: " followed by the city name; the message
    contains "Could not find coordinates"; for the city
    imaginary_city_123 the payload is the text
    {"error": "Could not find coordinates for city: imaginary_city_123"}. *)
Theorem coordinates_not_found `{R : Runtime} (up : Http.upstream)
  (city_name : string) (data : pyval) :
  answers up geocoding_url (geocoding_params city_name) data ->
  zero_matches data ->
  let message := "Could not find coordinates for city: " ++ city_name in
  Tools.get_coordinates_from_city up city_name
    = Return (Text.dumps_error message)
  /\ Text.contains "Could not find coordinates" message = true
  /\ (city_name = "imaginary_city_123" ->
      Tools.get_coordinates_from_city up city_name
      = Return ("{" ++ Text.dquote ++ "error" ++ Text.dquote ++ ": "
                ++ Text.dquote
                ++ "Could not find coordinates for city: imaginary_city_123"
                ++ Text.dquote ++ "}")).
Proof.
  intros Hup Hzero message.
  assert (Hrun : Tools.get_coordinates_from_city up city_name
                 = Return (Text.dumps_error message)).
  { unfold Tools.get_coordinates_from_city, try_except.
    fold geocoding_url. fold (geocoding_params city_name).
    upstream_answers Hup.
    destruct Hzero as [entries Hl | entries Hl];
      cbn [get]; rewrite Hl; reflexivity. }
  split; [exact Hrun|]. split.
  - apply (contains_prefix "Could not find coordinates").
  - intros ->. rewrite Hrun. reflexivity.
Qed.

Lemma coordinates_not_found_witness :
  Tools.get_coordinates_from_city (R := Reference.runtime)
    (serving (VDict [("results", VList [])])) "imaginary_city_123"
  = Return ("{" ++ Text.dquote ++ "error" ++ Text.dquote ++ ": "
            ++ Text.dquote
            ++ "Could not find coordinates for city: imaginary_city_123"
            ++ Text.dquote ++ "}").
Proof.
  refine (proj2 (proj2 (coordinates_not_found (R := Reference.runtime)
           (serving (VDict [("results", VList [])])) "imaginary_city_123"
           (VDict [("results", VList [])]) _ _)) eq_refl).
  - apply serving_answers.
  - apply results_empty. reflexivity.
Defined.

Lemma lookup_head (k : string) (v : pyval) (rest : list (string * pyval)) :
  lookup k ((k, v) :: rest) = Some v.
Proof. simpl. rewrite String.eqb_refl. reflexivity. Qed.

(** C6: when the encyclopedia returns no page entries or marks the
    page as missing, the tool returns an error payload whose message
    contains "No Wikipedia article found", letter case aside. *)
Theorem wikipedia_not_found `{R : Runtime} (up : Http.upstream)
  (query : string) (data : pyval) :
  answers up wikipedia_url (wikipedia_params query) data ->
  no_article data ->
  exists message,
    Tools.search_wikipedia up query = Return (Text.dumps_error message)
    /\ Text.contains (Text.lower "No Wikipedia article found")
                     (Text.lower message) = true.
Proof.
  intros Hup Hno.
  unfold Tools.search_wikipedia, try_except.
  fold wikipedia_url. fold (wikipedia_params query).
  upstream_answers Hup.
  destruct Hno as [entries Hq | entries q Hq Hp | entries q Hq Hp
                  | entries q id page rest Hq Hp Hm];
    cbn [get Py.bind]; rewrite Hq; cbn [get Py.bind lookup truthy negb].
  - exists "No wikipedia article found for the query". split; reflexivity.
  - rewrite Hp. exists "No wikipedia article found for the query".
    split; reflexivity.
  - rewrite Hp. exists "No wikipedia article found for the query".
    split; reflexivity.
  - rewrite Hp. cbn [truthy negb first Py.bind getitem].
    rewrite lookup_head. cbn [Py.bind contains]. rewrite Hm.
    exists "No wikipedia article found the query". split; reflexivity.
Qed.

Lemma wikipedia_not_found_witness :
  exists message,
    Tools.search_wikipedia (R := Reference.runtime)
      (serving
         (VDict [("query",
                  VDict [("pages",
                          VDict [("-1", VDict [("missing", VStr "")])])])]))
      "Zorp the Destroyer"
    = Return (Text.dumps_error message)
    /\ Text.contains (Text.lower "No Wikipedia article found")
                     (Text.lower message) = true.
Proof.
  apply (wikipedia_not_found (R := Reference.runtime) _ "Zorp the Destroyer"
           (VDict [("query",
                    VDict [("pages",
                            VDict [("-1", VDict [("missing", VStr "")])])])])).
  - apply serving_answers.
  - eapply page_missing; reflexivity.
Defined.

(** C7: [calculate("10 + 5 * 2")] returns "20", in every interpreter
    state: the expression is read as 10 + (5 * 2). *)
Theorem calculate_precedence (st : PyExpr.store) :
  PyExpr.parse_expression "10 + 5 * 2"
  = PyExpr.Parsed
      (PyExpr.Binary PyExpr.Add (PyExpr.Num 10)
         (PyExpr.Binary PyExpr.Mul (PyExpr.Num 5) (PyExpr.Num 2)))
  /\ PyExpr.calculate "10 + 5 * 2" st = Eff.Val "20" st.
Proof. split; vm_compute; reflexivity. Qed.

(* ------------------------------------------------------------------ *)
(** ** What escapes a tool *)
(* ------------------------------------------------------------------ *)

(** A computation whose failures are all instances of [Exception]. *)
Definition raises_only_exceptions {A} (o : outcome A) : Prop :=
  forall e, o = Raise e -> isinstance e Exception = true.

(** An upstream none of whose calls fails with anything but an
    [Exception]: a timeout, a connection failure, a bad status,
    undecodable JSON, or any other exception. *)
Definition well_behaved (up : Http.upstream) : Prop :=
  forall url params timeout,
    raises_only_exceptions (up url params timeout)
    /\ forall r, up url params timeout = Return r ->
         raises_only_exceptions (Http.raise_for_status r)
         /\ raises_only_exceptions (Http.json r).

Section Escapes.
Context {R : Runtime}.

Lemma roe_return {A} (a : A) : raises_only_exceptions (Return a).
Proof. intros e H. discriminate. Qed.

Lemma roe_bind {A B} (m : outcome A) (k : A -> outcome B) :
  raises_only_exceptions m ->
  (forall a, m = Return a -> raises_only_exceptions (k a)) ->
  raises_only_exceptions (Py.bind m k).
Proof.
  intros Hm Hk. destruct m as [a|e]; simpl.
  - apply Hk. reflexivity.
  - intros e' H. injection H as <-. apply Hm. reflexivity.
Qed.

Lemma fault_is_exception (f : fault) :
  issubclass (fault_class f) Exception = true.
Proof. destruct f; reflexivity. Qed.

Lemma roe_fault {A} (f : fault) :
  raises_only_exceptions (raise_fault (A := A) f).
Proof.
  intros e H. injection H as <-. apply fault_is_exception.
Qed.

Lemma roe_get v key default : raises_only_exceptions (get v key default).
Proof. destruct v; first [apply roe_return | apply roe_fault]. Qed.

Lemma roe_contains key v : raises_only_exceptions (contains key v).
Proof. destruct v; first [apply roe_return | apply roe_fault]. Qed.

Lemma roe_first v : raises_only_exceptions (first v).
Proof.
  destruct v as [| | | |s|l|d]; try apply roe_fault.
  - destruct s; [apply roe_fault | apply roe_return].
  - destruct l; [apply roe_fault | apply roe_return].
  - destruct d as [|[k x] d]; [apply roe_fault | apply roe_return].
Qed.

Lemma roe_getitem c k : raises_only_exceptions (getitem c k).
Proof.
  unfold getitem.
  repeat first
    [ apply roe_return | apply roe_fault
    | match goal with
      | |- raises_only_exceptions (match ?x with _ => _ end) => destruct x
      end ].
Qed.

Lemma roe_validation {A} errs :
  raises_only_exceptions (Raise (A := A) (Model.validation_error errs)).
Proof. intros e H. injection H as <-. reflexivity. Qed.

Lemma roe_coordinates args :
  raises_only_exceptions (Coordinates.validate args).
Proof.
  unfold Coordinates.validate.
  repeat match goal with
         | |- raises_only_exceptions (match ?x with _ => _ end) =>
             destruct x
         end; first [apply roe_return | apply roe_validation].
Qed.

Lemma roe_weather args :
  raises_only_exceptions (CurrentWeather.validate args).
Proof.
  unfold CurrentWeather.validate.
  repeat match goal with
         | |- raises_only_exceptions (match ?x with _ => _ end) =>
             destruct x
         end; first [apply roe_return | apply roe_validation].
Qed.

Lemma roe_article args :
  raises_only_exceptions (WikipediaArticle.validate args).
Proof.
  unfold WikipediaArticle.validate.
  repeat match goal with
         | |- raises_only_exceptions (match ?x with _ => _ end) =>
             destruct x
         end; first [apply roe_return | apply roe_validation].
Qed.

(** A [try] whose handlers all return and whose list of handlers
    has one for [Exception] returns whenever its body fails only
    with exceptions. *)
Definition returning {A} (hs : list (handler A)) : Prop :=
  Forall (fun ch => forall e, exists a, snd ch e = Return a) hs.

Lemma dispatch_returns {A} (hs : list (handler A)) (e : exn) :
  returning hs ->
  existsb (fun ch => isinstance e (fst ch)) hs = true ->
  exists a, dispatch hs e = Return a.
Proof.
  induction hs as [|[c h] hs IH]; intros Hr Hex; [discriminate|].
  inversion Hr as [|? ? Hh Hrest]; subst. simpl in *.
  destruct (isinstance e c); [apply Hh | apply IH; assumption].
Qed.

Lemma try_except_returns {A} (body : outcome A) (hs : list (handler A)) :
  raises_only_exceptions body ->
  returning hs ->
  existsb (fun ch => cls_beq (fst ch) Exception) hs = true ->
  exists a, try_except body hs = Return a.
Proof.
  intros Hb Hr Hex. destruct body as [a|e]; simpl; [eauto|].
  apply dispatch_returns; [assumption|].
  specialize (Hb e eq_refl).
  apply existsb_exists in Hex as ([c h] & Hin & Hc).
  apply existsb_exists. exists (c, h). split; [assumption|].
  simpl in *. apply internal_cls_dec_bl in Hc. subst c. exact Hb.
Qed.

End Escapes.

#[export] Hint Resolve roe_return roe_fault roe_get roe_contains roe_first
  roe_getitem roe_coordinates roe_weather roe_article : tools.

(** Walk through a tool body, one statement at a time. *)
Ltac roe_body Hup :=
  repeat first
    [ progress eauto with tools
    | apply roe_bind; [| intros ? ?]
    | match goal with
      | |- raises_only_exceptions (if ?b then _ else _) => destruct b
      | |- raises_only_exceptions (?up ?url ?params ?t) =>
          apply (proj1 (Hup url params t))
      | H : ?up ?url ?params ?t = Return ?r
        |- raises_only_exceptions (Http.raise_for_status ?r) =>
          apply (proj1 (proj2 (Hup url params t) r H))
      | H : ?up ?url ?params ?t = Return ?r
        |- raises_only_exceptions (Http.json ?r) =>
          apply (proj2 (proj2 (Hup url params t) r H))
      end ].

Ltac handlers_return :=
  repeat constructor; intros ?; eexists; reflexivity.

Section Totality.
Context {R : Runtime}.
Variable up : Http.upstream.
Hypothesis Hup : well_behaved up.

Lemma coordinates_returns city_name :
  exists s, Tools.get_coordinates_from_city up city_name = Return s.
Proof.
  unfold Tools.get_coordinates_from_city.
  apply try_except_returns; [| handlers_return | reflexivity].
  roe_body Hup.
Qed.

Lemma weather_returns latitude longitude :
  exists s, Tools.get_current_weather up latitude longitude = Return s.
Proof.
  unfold Tools.get_current_weather.
  apply try_except_returns; [| handlers_return | reflexivity].
  roe_body Hup.
Qed.

Lemma wikipedia_returns query :
  exists s, Tools.search_wikipedia up query = Return s.
Proof.
  unfold Tools.search_wikipedia.
  apply try_except_returns; [| handlers_return | reflexivity].
  roe_body Hup.
Qed.

End Totality.

(* ------------------------------------------------------------------ *)
(** ** The calculator, whatever the evaluator *)
(* ------------------------------------------------------------------ *)

Lemma syntax_error_is_exception (e : exn) :
  isinstance e SyntaxError = true -> isinstance e Exception = true.
Proof. unfold isinstance. destruct (exn_class e); intro H; try reflexivity;
       discriminate H. Qed.

Lemma name_error_is_exception (e : exn) :
  isinstance e NameError = true -> isinstance e Exception = true.
Proof. unfold isinstance. destruct (exn_class e); intro H; try reflexivity;
       discriminate H. Qed.

Section CalculatorFacts.
Context {S V : Type}.
Variable eval : string -> Eff.comp S V.
Variable str : V -> Eff.comp S string.

(** The message the handlers choose for an exception. *)
Definition error_text (e : exn) : string :=
  if isinstance e SyntaxError then
    "Error: Invalid mathematical expression."
  else if isinstance e NameError then
    "Error: Invalid input in expression (e.g., non-numeric characters)."
  else "Error during calculation: " ++ exn_str e.

Lemma error_text_is_error (e : exn) :
  ArithGrammar.is_error_string (error_text e) = true.
Proof.
  unfold error_text.
  destruct (isinstance e SyntaxError); [reflexivity|].
  destruct (isinstance e NameError); reflexivity.
Qed.

Lemma calculate_cases (expression : string) (st : S) :
  Calculator.calculate eval str expression st =
  match Eff.bind (eval expression) str st with
  | Eff.Val s st' => Eff.Val s st'
  | Eff.Exc e st' =>
      if isinstance e Exception then Eff.Val (error_text e) st'
      else Eff.Exc e st'
  | Eff.Beyond => Eff.Beyond
  end.
Proof.
  unfold Calculator.calculate, Eff.try_except, error_text.
  destruct (Eff.bind (eval expression) str st) as [s st'|e st'|];
    try reflexivity.
  cbn [Eff.dispatch].
  destruct (isinstance e SyntaxError) eqn:Hs.
  { rewrite (syntax_error_is_exception e Hs). reflexivity. }
  destruct (isinstance e NameError) eqn:Hn.
  { rewrite (name_error_is_exception e Hn). reflexivity. }
  destruct (isinstance e Exception); reflexivity.
Qed.

End CalculatorFacts.

(** C1, as the code has it: [calculate] hands every input to the
    interpreter's [eval].  When evaluation and [str] return, the tool
    returns that text, whatever the input is made of; it returns an
    error string exactly for the failures that are instances of
    [Exception] -- the syntax message for a [SyntaxError], the
    invalid-input message for a [NameError], "Error during
    calculation: " and the exception's text for the others. *)
Theorem calculate_by_evaluation {S V : Type}
  (eval : string -> Eff.comp S V) (str : V -> Eff.comp S string)
  (expression : string) (st : S) :
  match Eff.bind (eval expression) str st with
  | Eff.Val s st' =>
      Calculator.calculate eval str expression st = Eff.Val s st'
  | Eff.Exc e st' =>
      if isinstance e Exception then
        Calculator.calculate eval str expression st
        = Eff.Val (error_text e) st'
        /\ ArithGrammar.is_error_string (error_text e) = true
      else Calculator.calculate eval str expression st = Eff.Exc e st'
  | Eff.Beyond => Calculator.calculate eval str expression st = Eff.Beyond
  end.
Proof.
  rewrite calculate_cases.
  destruct (Eff.bind (eval expression) str st) as [s st'|e st'|];
    try reflexivity.
  destruct (isinstance e Exception); [|reflexivity].
  split; [reflexivity | apply error_text_is_error].
Qed.

(** C1, as stated, fails: "7 % 3" is outside the arithmetic grammar,
    yet it is evaluated and the tool returns "1", not an error
    string. *)
Lemma calculate_outside_grammar :
  ArithGrammar.in_grammar "7 % 3" = false
  /\ PyExpr.calculate "7 % 3" [] = Eff.Val "1" []
  /\ ArithGrammar.is_error_string "1" = false.
Proof. repeat split; vm_compute; reflexivity. Qed.


(* ------------------------------------------------------------------ *)
(** ** The weather tool *)
(* ------------------------------------------------------------------ *)

Section TryExcept.
Context {R : Runtime}.

Lemma try_except_inv {A} (body : outcome A) (hs : list (handler A)) (a : A) :
  try_except body hs = Return a ->
  body = Return a \/ exists e, body = Raise e /\ dispatch hs e = Return a.
Proof.
  destruct body as [b|e]; simpl; intro H.
  - left. exact H.
  - right. exists e. auto.
Qed.

(** Handlers that each return an error payload. *)
Definition reporting (hs : list (handler string)) : Prop :=
  Forall (fun ch => forall e, exists msg,
              snd ch e = Return (Text.dumps_error msg)) hs.

Lemma dispatch_reports (hs : list (handler string)) (e : exn) (s : string) :
  reporting hs -> dispatch hs e = Return s ->
  exists msg, s = Text.dumps_error msg.
Proof.
  induction hs as [|[c h] hs IH]; intros Hr H; [discriminate|].
  inversion Hr as [|? ? Hh Hrest]; subst. simpl in H.
  destruct (isinstance e c).
  - destruct (Hh e) as [msg Hm]. simpl in Hm. rewrite Hm in H.
    injection H as <-. eauto.
  - apply IH; assumption.
Qed.

End TryExcept.

Ltac handlers_report :=
  repeat constructor; intros ?; eexists; reflexivity.

(** Take the next statement of a tool body that has run to its end. *)
Ltac next_statement H :=
  match type of H with
  | context [Py.bind ?m _] =>
      let E := fresh "E" in
      destruct m eqn:E; cbn [Py.bind] in H; [| discriminate H]
  end.

Section Weather.
Context {R : Runtime}.

Definition weather_fields : list string :=
  ["latitude"; "longitude"; "temperature"; "wind_speed";
   "relative_humidity_2m"; "is_day"; "weather_code"; "time"].

(** The fields the tool reads from the [current] object of the
    forecast service. *)
Definition upstream_fields : list string :=
  ["temperature_2m"; "wind_speed_10m"; "relative_humidity_2m"; "is_day";
   "weather_code"; "time"].

(** A validated snapshot dumps to the eight fields, the day flag and
    the weather code as ints, and validates again to itself. *)
Lemma snapshot_round_trip (w : CurrentWeather.t) :
  CurrentWeather.validate (CurrentWeather.model_dump w) = Return w
  /\ map fst (CurrentWeather.model_dump w) = weather_fields
  /\ lookup "is_day" (CurrentWeather.model_dump w)
     = Some (VInt (CurrentWeather.is_day w))
  /\ lookup "weather_code" (CurrentWeather.model_dump w)
     = Some (VInt (CurrentWeather.weather_code w)).
Proof.
  destruct w as [a b c d e f g h].
  unfold CurrentWeather.validate, CurrentWeather.model_dump, Model.field.
  cbn [lookup String.eqb Ascii.eqb Bool.eqb CurrentWeather.latitude
       CurrentWeather.longitude CurrentWeather.temperature
       CurrentWeather.wind_speed CurrentWeather.relative_humidity_2m
       CurrentWeather.is_day CurrentWeather.weather_code
       CurrentWeather.time map fst].
  rewrite !float_accepts_float, !int_accepts_int, str_accepts_str.
  repeat split; reflexivity.
Qed.

(** What [get_current_weather] can return: an error payload, or the
    dump of a snapshot that carries the caller's coordinates. *)
Lemma weather_cases (up : Http.upstream) (latitude longitude : float)
  (s : string) :
  Tools.get_current_weather up latitude longitude = Return s ->
  (exists msg, s = Text.dumps_error msg)
  \/ (exists w, s = CurrentWeather.model_dump_json w
                /\ CurrentWeather.latitude w = latitude
                /\ CurrentWeather.longitude w = longitude).
Proof.
  unfold Tools.get_current_weather. intro H.
  apply try_except_inv in H as [H | (e & _ & H)].
  2: { left. eapply dispatch_reports; [| exact H]. handlers_report. }
  cbv zeta in H.
  do 4 next_statement H.
  match type of H with
  | (if negb ?b then _ else _) = _ => destruct b; cbn [negb] in H
  end.
  2: { left. injection H as <-. eauto. }
  do 8 next_statement H.
  injection H as <-. right.
  match goal with
  | E : CurrentWeather.validate _ = Return ?w |- _ =>
      exists w; split; [reflexivity|]; revert E
  end.
  unfold CurrentWeather.validate, Model.field.
  cbn [lookup String.eqb Ascii.eqb Bool.eqb].
  rewrite !float_accepts_float.
  repeat match goal with
         | |- context [match ?x with Some _ => _ | None => _ end] =>
             destruct x
         end; intro Hv; try discriminate Hv.
  injection Hv as <-. split; reflexivity.
Qed.

End Weather.

Section OtherResults.
Context {R : Runtime}.
Variable up : Http.upstream.

(** What the other two upstream tools can return: an error payload or
    the dump of a validated model. *)
Lemma coordinates_cases (city_name s : string) :
  Tools.get_coordinates_from_city up city_name = Return s ->
  (exists msg, s = Text.dumps_error msg)
  \/ (exists c, s = Coordinates.model_dump_json c).
Proof.
  unfold Tools.get_coordinates_from_city. intro H.
  apply try_except_inv in H as [H | (e & _ & H)].
  2: { left. eapply dispatch_reports; [| exact H]. handlers_report. }
  cbv zeta in H.
  do 4 next_statement H.
  match type of H with
  | (if negb ?b then _ else _) = _ => destruct b; cbn [negb] in H
  end.
  2: { left. injection H as <-. eauto. }
  do 6 next_statement H.
  injection H as <-. right. eauto.
Qed.

Lemma wikipedia_cases (query s : string) :
  Tools.search_wikipedia up query = Return s ->
  (exists msg, s = Text.dumps_error msg)
  \/ (exists a, s = WikipediaArticle.model_dump_json a).
Proof.
  unfold Tools.search_wikipedia. intro H.
  apply try_except_inv in H as [H | (e & _ & H)].
  2: { left. eapply dispatch_reports; [| exact H]. handlers_report. }
  cbv zeta in H.
  do 5 next_statement H.
  match type of H with
  | (if negb ?b then _ else _) = _ => destruct b; cbn [negb] in H
  end.
  2: { left. injection H as <-. eauto. }
  do 3 next_statement H.
  match type of H with
  | (if ?b then _ else _) = _ => destruct b
  end.
  { left. injection H as <-. eauto. }
  do 5 next_statement H.
  injection H as <-. right. eauto.
Qed.

End OtherResults.

Section WeatherResults.
Context {R : Runtime}.
Variable up : Http.upstream.
Variables latitude longitude : float.

(** A complete [current] object whose values have the declared types
    gives the snapshot made of them and of the caller's coordinates. *)
Lemma weather_success entries cur t w h d c tm :
  answers up weather_url (weather_params latitude longitude)
          (VDict entries) ->
  lookup "current" entries = Some (VDict cur) ->
  lookup "temperature_2m" cur = Some (VFloat t) ->
  lookup "wind_speed_10m" cur = Some (VFloat w) ->
  lookup "relative_humidity_2m" cur = Some (VFloat h) ->
  lookup "is_day" cur = Some (VInt d) ->
  lookup "weather_code" cur = Some (VInt c) ->
  lookup "time" cur = Some (VStr tm) ->
  Tools.get_current_weather up latitude longitude
  = Return (CurrentWeather.model_dump_json
              (CurrentWeather.mk latitude longitude t w h d c tm)).
Proof.
  intros Hup Hcur Ht Hw Hh Hd Hc Htm.
  unfold Tools.get_current_weather, try_except.
  fold weather_url. fold (weather_params latitude longitude).
  upstream_answers Hup.
  cbn [contains has_key getitem get Py.bind]. unfold has_key.
  rewrite Hcur. cbn [negb Py.bind get].
  rewrite Ht, Hw, Hh, Hd, Hc, Htm. cbn [Py.bind].
  unfold CurrentWeather.validate, Model.field.
  cbn [lookup String.eqb Ascii.eqb Bool.eqb].
  rewrite !float_accepts_float, !int_accepts_int, str_accepts_str.
  reflexivity.
Qed.

(** A [current] object that lacks one of the fields read from it
    fails validation. *)
Lemma weather_missing_field entries cur key :
  answers up weather_url (weather_params latitude longitude)
          (VDict entries) ->
  lookup "current" entries = Some (VDict cur) ->
  In key upstream_fields ->
  lookup key cur = None ->
  exists errs,
    errs <> []
    /\ Tools.get_current_weather up latitude longitude
       = Return (Text.dumps_error
                   ("Failed to validate weather data schema: "
                    ++ errors_repr errs)).
Proof.
  intros Hup Hcur Hin Hnone.
  unfold Tools.get_current_weather, try_except.
  fold weather_url. fold (weather_params latitude longitude).
  upstream_answers Hup.
  cbn [contains has_key getitem get Py.bind]. unfold has_key.
  rewrite Hcur. cbn [negb Py.bind get].
  unfold CurrentWeather.validate, Model.field.
  cbn [lookup String.eqb Ascii.eqb Bool.eqb].
  rewrite !float_accepts_float.
  unfold upstream_fields in Hin. cbn [In] in Hin.
  repeat (destruct Hin as [<- | Hin]); [..| contradiction];
    rewrite Hnone;
    rewrite ?float_rejects_None, ?int_rejects_None, ?str_rejects_None;
    repeat match goal with
           | |- context [match ?v ?x with Some _ => _ | None => _ end] =>
               destruct (v x)
           end;
    cbn [Py.bind dispatch Model.failure lookup String.eqb Ascii.eqb
         Bool.eqb app];
    (eexists; split; [| reflexivity]; discriminate).
Qed.

End WeatherResults.

(** The forecast document of the test suite's mock, with and without
    the coordinates the service reports itself. *)
Definition current_object : list (string * pyval) :=
  [("temperature_2m", VFloat 15.5); ("wind_speed_10m", VFloat 12.25);
   ("relative_humidity_2m", VFloat 75); ("is_day", VInt 1);
   ("weather_code", VInt 3); ("time", VStr "2025-06-01T10:00Z")].

Definition forecast_without_coordinates : pyval :=
  VDict [("current", VDict current_object)].

Definition forecast_elsewhere : pyval :=
  VDict [("latitude", VFloat 48.75); ("longitude", VFloat 2.25);
         ("current", VDict current_object)].




(** C10: whatever the service answers, a snapshot the tool returns
    carries exactly the caller's latitude and longitude; the
    coordinates the service reports itself play no part in the
    result. *)
Theorem weather_keeps_callers_coordinates `{R : Runtime}
  (latitude longitude : float) :
  (forall up s,
      Tools.get_current_weather up latitude longitude = Return s ->
      (exists msg, s = Text.dumps_error msg)
      \/ exists snapshot,
          s = CurrentWeather.model_dump_json snapshot
          /\ CurrentWeather.latitude snapshot = latitude
          /\ CurrentWeather.longitude snapshot = longitude)
  /\ (forall entries reported_latitude reported_longitude,
      Tools.get_current_weather
        (serving (VDict (("latitude", reported_latitude)
                          :: ("longitude", reported_longitude) :: entries)))
        latitude longitude
      = Tools.get_current_weather (serving (VDict entries))
          latitude longitude).
Proof.
  split.
  - intros up s H. apply (weather_cases up latitude longitude s H).
  - intros entries v1 v2. reflexivity.
Qed.

Lemma weather_keeps_callers_coordinates_witness :
  exists snapshot,
    Tools.get_current_weather (R := Reference.runtime)
      (serving forecast_elsewhere) 51.5 (-0.125)
    = Return (CurrentWeather.model_dump_json (R := Reference.runtime)
                snapshot)
    /\ CurrentWeather.latitude snapshot = 51.5%float
    /\ CurrentWeather.longitude snapshot = (-0.125)%float.
Proof.
  destruct (proj1 (weather_keeps_callers_coordinates
                     (R := Reference.runtime) 51.5 (-0.125))
              (serving forecast_elsewhere) _ eq_refl)
    as [(msg & Hmsg) | (w & Hw & Hlat & Hlon)].
  - vm_compute in Hmsg. discriminate Hmsg.
  - exists w. rewrite <- Hw. auto.
Defined.

(* ------------------------------------------------------------------ *)
(** ** Failures become payloads *)
(* ------------------------------------------------------------------ *)

(** The external call fails with [e]: the request itself, the status
    check, or the decoding of the body. *)
Inductive fails_with (up : Http.upstream) (url : string)
  (params : list (string * pyval)) (e : exn) : Prop :=
| request_fails : up url params 30%Z = Raise e -> fails_with up url params e
| status_fails r :
    up url params 30%Z = Return r ->
    Http.raise_for_status r = Raise e -> fails_with up url params e
| decoding_fails r :
    up url params 30%Z = Return r ->
    Http.raise_for_status r = Return tt ->
    Http.json r = Raise e -> fails_with up url params e.

Section Failures.
Context {R : Runtime}.
Variable up : Http.upstream.

Lemma dispatch_payload (hs : list (handler string)) (e : exn) :
  reporting hs ->
  existsb (fun ch => isinstance e (fst ch)) hs = true ->
  exists msg, dispatch hs e = Return (Text.dumps_error msg).
Proof.
  induction hs as [|[c h] hs IH]; intros Hr Hex; [discriminate|].
  inversion Hr as [|? ? Hh Hrest]; subst. simpl in *.
  destruct (isinstance e c); [apply Hh | apply IH; assumption].
Qed.

Ltac external_failure H He :=
  destruct H as [Hg | r Hg Hs | r Hg Hs Hj];
  rewrite Hg; cbn [Py.bind]; try (rewrite Hs; cbn [Py.bind]);
  try (rewrite Hj; cbn [Py.bind]);
  (apply dispatch_payload; [handlers_report |]);
  cbn [existsb fst]; rewrite He; rewrite ?orb_true_r; reflexivity.

Lemma coordinates_failure city_name e :
  fails_with up geocoding_url (geocoding_params city_name) e ->
  isinstance e Exception = true ->
  exists msg,
    Tools.get_coordinates_from_city up city_name
    = Return (Text.dumps_error msg).
Proof.
  intros H He. unfold Tools.get_coordinates_from_city, try_except.
  fold geocoding_url. fold (geocoding_params city_name).
  external_failure H He.
Qed.

Lemma weather_failure latitude longitude e :
  fails_with up weather_url (weather_params latitude longitude) e ->
  isinstance e Exception = true ->
  exists msg,
    Tools.get_current_weather up latitude longitude
    = Return (Text.dumps_error msg).
Proof.
  intros H He. unfold Tools.get_current_weather, try_except.
  fold weather_url. fold (weather_params latitude longitude).
  external_failure H He.
Qed.

Lemma wikipedia_failure query e :
  fails_with up wikipedia_url (wikipedia_params query) e ->
  isinstance e Exception = true ->
  exists msg,
    Tools.search_wikipedia up query = Return (Text.dumps_error msg).
Proof.
  intros H He. unfold Tools.search_wikipedia, try_except.
  fold wikipedia_url. fold (wikipedia_params query).
  external_failure H He.
Qed.

End Failures.


(** An upstream whose every request times out while connecting. *)
Definition unreachable : Http.upstream :=
  fun _ _ _ => Raise (mkExn ConnectTimeout "connection timed out" "").

Lemma unreachable_well_behaved : well_behaved unreachable.
Proof.
  intros url params timeout. split.
  - intros e H. injection H as <-. reflexivity.
  - intros r H. discriminate H.
Qed.



(* ------------------------------------------------------------------ *)
(** ** The tools, invoked twice *)
(* ------------------------------------------------------------------ *)




(* ================================================================== *)
(** * Properties of the control loop *)
(* ================================================================== *)

Section Loop.
Context {R : Runtime}.
Variable llm_with_tools : list Agent.message -> string * list Agent.tool_call.
Variable run_tool : Agent.tool_call -> string.
Variable emits_end : bool.

Import Agent.

Local Abbreviation requests := (Agent.requests llm_with_tools).
Local Abbreviation call_model := (Agent.call_model llm_with_tools).
Local Abbreviation tool_node := (Agent.tool_node run_tool).
Local Abbreviation after_rounds := (Agent.after_rounds llm_with_tools run_tool).
Local Abbreviation run_graph := (Agent.run_graph llm_with_tools run_tool emits_end).

(** One round: the model's response, then the answers to its
    requests. *)
Definition round (state : AgentState) : AgentState :=
  add_messages (add_messages state (call_model state))
               (tool_node (add_messages state (call_model state))).

Lemma last_some_app {A} (l : list A) (x : A) :
  List.last (map Some (l ++ [x])%list) None = Some x.
Proof.
  induction l as [|a l IH]; [reflexivity|].
  simpl. rewrite IH. destruct (l ++ [x])%list eqn:E; [|reflexivity].
  destruct l; discriminate E.
Qed.

Lemma last_some_cons {A} (a : A) (l : list A) :
  List.last (map Some (a :: l)) None
  = match List.last (map Some l) None with
    | Some x => Some x
    | None => Some a
    end.
Proof.
  revert a. induction l as [|b l IH]; intro a; [reflexivity|].
  change (List.last (map Some (a :: b :: l)) None)
    with (List.last (map Some (b :: l)) None).
  rewrite (IH b). destruct (List.last (map Some l) None); reflexivity.
Qed.

Lemma call_model_eq (state : AgentState) :
  call_model state
  = [AIMessage (fst (llm_with_tools state)) (requests state)].
Proof.
  unfold Agent.call_model, Agent.requests.
  destruct (llm_with_tools state); reflexivity.
Qed.

Lemma should_continue_after_model (state : AgentState) :
  should_continue (add_messages state (call_model state))
  = match requests state with [] => END | _ :: _ => ToTools end.
Proof.
  unfold should_continue, last_message, add_messages.
  rewrite call_model_eq, last_some_app. reflexivity.
Qed.

Lemma tool_node_after_model (state : AgentState) :
  tool_node (add_messages state (call_model state))
  = map (answer run_tool) (requests state).
Proof.
  unfold Agent.tool_node, last_message, add_messages.
  rewrite call_model_eq, last_some_app. reflexivity.
Qed.

Lemma after_rounds_step (n : nat) (state : AgentState) :
  after_rounds (S n) state = after_rounds n (round state).
Proof. reflexivity. Qed.

(** ** Requests and their answers *)

Lemma unanswered_from_app (open : list tool_call) (tr1 tr2 : list message) :
  unanswered_from open (tr1 ++ tr2)%list
  = unanswered_from (unanswered_from open tr1) tr2.
Proof.
  revert open. induction tr1 as [|m tr1 IH]; intro open; [reflexivity|].
  destruct m; simpl; apply IH.
Qed.

Lemma answers_close_requests (calls : list tool_call) :
  unanswered_from calls (map (answer run_tool) calls) = [].
Proof.
  induction calls as [|c calls IH]; [reflexivity|].
  simpl. unfold same_call. rewrite !String.eqb_refl. exact IH.
Qed.

Lemma round_answers_everything (state : AgentState) :
  unanswered state = [] -> unanswered (round state) = [].
Proof.
  unfold unanswered, round, add_messages. intro H.
  rewrite tool_node_after_model, call_model_eq.
  rewrite !unanswered_from_app, H. simpl.
  apply answers_close_requests.
Qed.

Lemma after_rounds_answered (n : nat) (state : AgentState) :
  unanswered state = [] -> unanswered (after_rounds n state) = [].
Proof.
  revert state. induction n as [|n IH]; intros state H; [exact H|].
  rewrite after_rounds_step. apply IH, round_answers_everything, H.
Qed.

Lemma direct_answer_leaves_nothing_open (state : AgentState) (text : string) :
  unanswered state = [] -> unanswered (state ++ [AIMessage text []])%list = [].
Proof.
  unfold unanswered. intro H. rewrite unanswered_from_app, H. reflexivity.
Qed.

(** ** What a finished run looks like *)

Definition not_end (s : chunk) : bool := negb (String.eqb (fst s) "__end__").

(** The facts about a run that ended after [n] rounds with the direct
    answer [text]. *)
Record ended (state : AgentState) (chunks : list chunk)
  (final : AgentState) (n : nat) (text : string) : Prop := {
  earlier_rounds_request :
    forall k, (k < n)%nat -> requests (after_rounds k state) <> [];
  last_round_answers : llm_with_tools (after_rounds n state) = (text, []);
  final_transcript :
    final = (after_rounds n state ++ [AIMessage text []])%list;
  last_update :
    List.last (map Some (filter not_end chunks)) None
    = Some ("agent", [AIMessage text []]);
  answer_shown : terminal_answer chunks = Some text;
  all_shown : (state ++ shown chunks)%list = final
}.

Lemma terminal_answer_cons (c : chunk) (chunks : list chunk) (text : string) :
  terminal_answer chunks = Some text ->
  terminal_answer (c :: chunks) = Some text.
Proof.
  unfold terminal_answer. rewrite last_some_cons.
  destruct (List.last (map Some chunks) None); [auto | discriminate].
Qed.

Lemma run_graph_finished (steps : nat) :
  forall state chunks final,
    run_graph steps state = (chunks, Finished final) ->
    exists n text,
      (2 * n + 1 <= steps)%nat /\ ended state chunks final n text.
Proof.
  induction steps as [steps IH] using lt_wf_ind.
  intros state chunks final H.
  destruct steps as [|steps]; [discriminate H|].
  cbn [Agent.run_graph] in H. cbv zeta in H.
  rewrite should_continue_after_model in H.
  destruct (requests state) as [|c calls] eqn:Hreq.
  - (* the model answered directly *)
    injection H as <- <-.
    exists 0%nat, (fst (llm_with_tools state)). split; [lia|].
    assert (Hllm : llm_with_tools state
                   = (fst (llm_with_tools state), [])).
    { unfold Agent.requests in Hreq.
      destruct (llm_with_tools state); simpl in *; congruence. }
    rewrite call_model_eq, Hreq. unfold add_messages.
    split; try reflexivity.
    + intros k Hk. lia.
    + exact Hllm.
    + destruct emits_end; reflexivity.
    + destruct emits_end; [|reflexivity].
      unfold terminal_answer, last_message. cbn [map List.last snd].
      rewrite last_some_app. reflexivity.
    + destruct emits_end; reflexivity.
  - (* the model requested tools *)
    destruct steps as [|steps]; [discriminate H|].
    fold (round state) in H.
    destruct (run_graph steps (round state)) as [rest st] eqn:Hrest.
    injection H as <- ->.
    destruct (IH steps ltac:(lia) _ _ _ Hrest) as (n & text & Hn & He).
    destruct He as [He1 He2 He3 He4 He5 He6].
    exists (S n), text. split; [lia|].
    split.
    + intros [|k] Hk.
      * simpl. rewrite Hreq. discriminate.
      * rewrite after_rounds_step. apply He1. lia.
    + rewrite after_rounds_step. exact He2.
    + rewrite after_rounds_step. exact He3.
    + change (filter not_end (("agent", call_model state)
                :: ("tools", tool_node (add_messages state (call_model state)))
                :: rest))
        with (("agent", call_model state)
                :: ("tools", tool_node (add_messages state (call_model state)))
                :: filter not_end rest).
      rewrite !last_some_cons, He4. reflexivity.
    + apply terminal_answer_cons, terminal_answer_cons, He5.
    + rewrite <- He6. unfold round, add_messages, shown.
      cbn [flat_map fst snd String.eqb Ascii.eqb Bool.eqb].
      rewrite <- !app_assoc. reflexivity.
Qed.

(** Enough steps, and a model that answers directly after [n] rounds
    of requests: the run ends with that answer. *)
Lemma run_graph_finishes (n : nat) :
  forall steps state text,
    (2 * n + 1 <= steps)%nat ->
    (forall k, (k < n)%nat -> requests (after_rounds k state) <> []) ->
    llm_with_tools (after_rounds n state) = (text, []) ->
    exists chunks,
      run_graph steps state
      = (chunks,
         Finished (after_rounds n state ++ [AIMessage text []])%list).
Proof.
  induction n as [|n IH]; intros steps state text Hsteps Hreq Hllm.
  - destruct steps as [|steps]; [lia|].
    cbn [Agent.run_graph]. cbv zeta.
    rewrite should_continue_after_model.
    simpl in Hllm. unfold Agent.requests. rewrite call_model_eq.
    unfold Agent.requests. rewrite Hllm. simpl. eauto.
  - destruct steps as [|[|steps]]; try lia.
    cbn [Agent.run_graph]. cbv zeta.
    rewrite should_continue_after_model.
    pose proof (Hreq 0%nat ltac:(lia)) as H0. simpl in H0.
    destruct (requests state) as [|c calls] eqn:E; [contradiction|].
    fold (round state).
    destruct (IH steps (round state) text) as [chunks Hc].
    + lia.
    + intros k Hk. rewrite <- after_rounds_step. apply Hreq. lia.
    + rewrite <- after_rounds_step. exact Hllm.
    + rewrite Hc. rewrite after_rounds_step. eauto.
Qed.

Lemma run_graph_status (steps : nat) (state : AgentState) :
  snd (run_graph steps state) = LimitReached
  \/ exists final, snd (run_graph steps state) = Finished final.
Proof.
  destruct (snd (run_graph steps state)); eauto.
Qed.

End Loop.

Section Queries.
Context {R : Runtime}.
Variable llm_with_tools : list Agent.message -> string * list Agent.tool_call.
Variable run_tool : Agent.tool_call -> string.
Variable emits_end : bool.
Variable recursion_limit : nat.

Import Agent.

Lemma run_query_returns (query : string) chunks final n text :
  Agent.stream_query llm_with_tools run_tool emits_end recursion_limit query
  = (chunks, Finished final) ->
  ended llm_with_tools run_tool [HumanMessage query] chunks final n text ->
  Agent.run_query llm_with_tools run_tool emits_end recursion_limit query
  = Return text.
Proof.
  unfold Agent.stream_query, Agent.run_query. intros Hs He.
  rewrite Hs.
  change (filter (fun s => negb (String.eqb (fst s) "__end__")) chunks)
    with (filter not_end chunks).
  pose proof (last_update _ _ _ _ _ _ _ He) as Hlast.
  unfold last_of. unfold chunk in *. rewrite Hlast.
  reflexivity.
Qed.

Lemma run_query_limit (query : string) chunks :
  Agent.stream_query llm_with_tools run_tool emits_end recursion_limit query
  = (chunks, LimitReached) ->
  Agent.run_query llm_with_tools run_tool emits_end recursion_limit query
  = Raise graph_recursion_error.
Proof.
  unfold Agent.stream_query, Agent.run_query. intros ->. reflexivity.
Qed.

End Queries.


(** A model that asks for the calculator once and then answers. *)
Definition scripted (messages : list Agent.message)
  : string * list Agent.tool_call :=
  match messages with
  | [_] =>
      ("", [Agent.mkCall "calculate" [("expression", VStr "10 + 5 * 2")]
              "call_1"])
  | _ => ("10 + 5 * 2 is 20.", [])
  end.



(* ================================================================== *)
(** * Further properties of the upstream tools *)
(* ================================================================== *)

Section Geocoding.
Context {R : Runtime}.
Variable up : Http.upstream.

Lemma getitem_first (x : pyval) (rest : list pyval) :
  getitem (VList (x :: rest)) (VInt 0) = Return x.
Proof.
  unfold getitem, as_index, position. cbn [Z.ltb Z.compare List.length].
  replace (Z.of_nat (S (List.length rest)) <=? 0)%Z with false
    by (symmetry; apply Z.leb_gt; lia).
  reflexivity.
Qed.

(** X1: The first-ranked match decides the result: its latitude and
    longitude are returned, its other fields and the other matches
    are dropped. *)
Theorem coordinates_first_match (city_name : string) entries first others
  (lat lon : float) :
  answers up geocoding_url (geocoding_params city_name) (VDict entries) ->
  lookup "results" entries = Some (VList (VDict first :: others)) ->
  lookup "latitude" first = Some (VFloat lat) ->
  lookup "longitude" first = Some (VFloat lon) ->
  Tools.get_coordinates_from_city up city_name
  = Return (Coordinates.model_dump_json (Coordinates.mk lat lon))
  /\ Coordinates.model_dump_json (Coordinates.mk lat lon)
     = Text.compact_object [Text.member "latitude" (float_json lat);
                            Text.member "longitude" (float_json lon)].
Proof.
  intros Hup Hres Hlat Hlon. split; [| reflexivity].
  unfold Tools.get_coordinates_from_city, try_except.
  fold geocoding_url. fold (geocoding_params city_name).
  upstream_answers Hup.
  cbn [get Py.bind]. rewrite Hres. cbn [truthy negb].
  rewrite getitem_first. cbn [Py.bind get]. rewrite Hlat, Hlon.
  unfold Coordinates.validate, Model.field.
  cbn [lookup String.eqb Ascii.eqb Bool.eqb].
  rewrite !float_accepts_float. reflexivity.
Qed.

(** X2: A first match without a latitude or without a longitude is a
    schema error, reported as an error payload. *)
Theorem coordinates_schema_error (city_name : string) entries first others
  (key : string) :
  answers up geocoding_url (geocoding_params city_name) (VDict entries) ->
  lookup "results" entries = Some (VList (VDict first :: others)) ->
  In key ["latitude"; "longitude"] ->
  lookup key first = None ->
  exists errs,
    In key (map fst errs)
    /\ Tools.get_coordinates_from_city up city_name
       = Return (Text.dumps_error
                   ("Failed to validate coordinates schema: "
                    ++ errors_repr errs)).
Proof.
  intros Hup Hres Hin Hnone.
  unfold Tools.get_coordinates_from_city, try_except.
  fold geocoding_url. fold (geocoding_params city_name).
  upstream_answers Hup.
  cbn [get Py.bind]. rewrite Hres. cbn [truthy negb].
  rewrite getitem_first. cbn [Py.bind get].
  unfold Coordinates.validate, Model.field.
  cbn [lookup String.eqb Ascii.eqb Bool.eqb].
  cbn [In] in Hin.
  repeat (destruct Hin as [<- | Hin]); [..| contradiction];
    rewrite Hnone; rewrite ?float_rejects_None;
    repeat match goal with
           | |- context [match ?v ?x with Some _ => _ | None => _ end] =>
               destruct (v x)
           end;
    cbn [Py.bind dispatch Model.failure lookup String.eqb Ascii.eqb
         Bool.eqb app];
    (eexists; split; [| reflexivity]; cbn [map fst In]; auto).
Qed.

End Geocoding.

Lemma coordinates_first_match_witness :
  Tools.get_coordinates_from_city (R := Reference.runtime)
    (serving
       (VDict [("results",
                VList [VDict [("name", VStr "London");
                              ("latitude", VFloat 51.5);
                              ("longitude", VFloat (-0.125));
                              ("country", VStr "United Kingdom")];
                       VDict [("name", VStr "London");
                              ("latitude", VFloat 42.75);
                              ("longitude", VFloat (-81.25))]])]))
    "London"
  = Return (Coordinates.model_dump_json (R := Reference.runtime)
              (Coordinates.mk 51.5 (-0.125))).
Proof.
  eapply (proj1 (coordinates_first_match (R := Reference.runtime) _ "London"
                   _ _ _ 51.5%float (-0.125)%float _ _ _ _)).
  Unshelve.
  all: try solve [apply serving_answers | reflexivity].
Defined.

Lemma coordinates_schema_error_witness :
  exists errs,
    In "longitude" (map fst errs)
    /\ Tools.get_coordinates_from_city (R := Reference.runtime)
         (serving
            (VDict [("results",
                     VList [VDict [("name", VStr "Nowhere");
                                   ("latitude", VFloat 1.5)]])]))
         "Nowhere"
       = Return (Text.dumps_error
                   ("Failed to validate coordinates schema: "
                    ++ errors_repr (Runtime := Reference.runtime) errs)).
Proof.
  eapply (coordinates_schema_error (R := Reference.runtime) _ "Nowhere"
            _ _ _ "longitude").
  - apply serving_answers.
  - reflexivity.
  - right. left. reflexivity.
  - reflexivity.
Defined.

Section Documents.
Context {R : Runtime}.
Variable up : Http.upstream.

Definition is_dict (v : pyval) : bool :=
  match v with VDict _ => true | _ => false end.

Definition is_scalar (v : pyval) : bool :=
  match v with
  | VNone | VBool _ | VInt _ | VFloat _ => true
  | _ => false
  end.

(** X3: A decoded document that is not an object -- a list, a string, a
    number, [null] -- never reaches the validation: the lookup on it
    fails inside the tool and comes back as the unexpected-error
    payload, with the interpreter's wording of the failure. *)
Theorem non_object_document (data : pyval) :
  (forall city_name,
      answers up geocoding_url (geocoding_params city_name) data ->
      is_dict data = false ->
      Tools.get_coordinates_from_city up city_name
      = Return (Text.dumps_error
                  ("An unexpected error occurred during coordinate retrieval: "
                   ++ describe (NoAttribute (type_of data) "get"))))
  /\ (forall query,
      answers up wikipedia_url (wikipedia_params query) data ->
      is_dict data = false ->
      Tools.search_wikipedia up query
      = Return (Text.dumps_error
                  ("An unexpected error occurred during Wikipedia search: "
                   ++ describe (NoAttribute (type_of data) "get"))))
  /\ (forall latitude longitude,
      answers up weather_url (weather_params latitude longitude) data ->
      is_scalar data = true ->
      Tools.get_current_weather up latitude longitude
      = Return (Text.dumps_error
                  ("An unexpected error occurred during weather retrieval: "
                   ++ describe (NotAContainer (type_of data))))).
Proof.
  split; [| split].
  - intros city Hup Hd.
    unfold Tools.get_coordinates_from_city, try_except.
    fold geocoding_url. fold (geocoding_params city).
    upstream_answers Hup.
    destruct data; try discriminate Hd; reflexivity.
  - intros query Hup Hd.
    unfold Tools.search_wikipedia, try_except.
    fold wikipedia_url. fold (wikipedia_params query).
    upstream_answers Hup.
    destruct data; try discriminate Hd; reflexivity.
  - intros lat lon Hup Hs.
    unfold Tools.get_current_weather, try_except.
    fold weather_url. fold (weather_params lat lon).
    upstream_answers Hup.
    destruct data; try discriminate Hs; reflexivity.
Qed.

(** X4: A forecast document without a [current] entry is reported as
    "no data", before anything is validated. *)
Theorem weather_no_current (latitude longitude : float) entries :
  answers up weather_url (weather_params latitude longitude)
          (VDict entries) ->
  lookup "current" entries = None ->
  Tools.get_current_weather up latitude longitude
  = Return (Text.dumps_error
              "No current weather data available for this location.").
Proof.
  intros Hup Hnone.
  unfold Tools.get_current_weather, try_except.
  fold weather_url. fold (weather_params latitude longitude).
  upstream_answers Hup.
  cbn [contains Py.bind]. unfold has_key. rewrite Hnone. reflexivity.
Qed.

End Documents.

Lemma non_object_document_witness :
  Tools.get_coordinates_from_city (R := Reference.runtime)
    (serving (VList [VStr "London"])) "London"
  = Return (Text.dumps_error
              "An unexpected error occurred during coordinate retrieval: 'list' object has no attribute 'get'").
Proof.
  apply (proj1 (non_object_document (R := Reference.runtime)
                  (serving (VList [VStr "London"]))
                  (VList [VStr "London"])) "London").
  - apply serving_answers.
  - reflexivity.
Defined.

Lemma weather_no_current_witness :
  Tools.get_current_weather (R := Reference.runtime)
    (serving (VDict [("latitude", VFloat 51.5)])) 51.5 (-0.125)
  = Return (Text.dumps_error
              "No current weather data available for this location.").
Proof.
  apply (weather_no_current (R := Reference.runtime) _ 51.5%float
           (-0.125)%float [("latitude", VFloat 51.5)]).
  - apply serving_answers.
  - reflexivity.
Defined.

(* ------------------------------------------------------------------ *)
(** ** Which handler a failure reaches *)
(* ------------------------------------------------------------------ *)

Lemma timeout_is_request_exception (e : exn) :
  isinstance e Timeout = true -> isinstance e RequestException = true.
Proof.
  unfold isinstance. destruct (exn_class e); intro H; try reflexivity;
    discriminate H.
Qed.

(** How a failed external call is reported by a tool that names its
    service [api]: a timeout by the fixed timed-out message; any other
    [RequestException] as a connection error with the exception's
    text, also when it is a [JSONDecodeError] at the same time; a
    [JSONDecodeError] as a decoding failure only when it is no
    [RequestException]. *)
Definition classified (result : outcome string) (api : string) (e : exn)
  : Prop :=
  (isinstance e Timeout = true ->
   result = Return (Text.dumps_error (api ++ " API request timed out.")))
  /\ (isinstance e Timeout = false ->
      isinstance e RequestException = true ->
      result = Return (Text.dumps_error
                         ("Error connecting to " ++ api ++ " API: "
                          ++ exn_str e)))
  /\ (isinstance e RequestException = false ->
      isinstance e JSONDecodeError = true ->
      result = Return (Text.dumps_error
                         ("Failed to decode JSON response from " ++ api
                          ++ " API."))).

Section Classification.
Context {R : Runtime}.
Variable up : Http.upstream.

Ltac failing_call H :=
  destruct H as [Hg | r Hg Hs | r Hg Hs Hj];
  rewrite Hg; cbn [Py.bind]; try (rewrite Hs; cbn [Py.bind]);
  try (rewrite Hj; cbn [Py.bind]); cbn [dispatch].

Ltac classify :=
  unfold classified; repeat split;
  [ intros Htime; rewrite Htime; reflexivity
  | intros Htime Hreq; rewrite Htime, Hreq; reflexivity
  | intros Hreq Hdec;
    destruct (isinstance _ Timeout) eqn:Htime;
    [ rewrite (timeout_is_request_exception _ Htime) in Hreq;
      discriminate Hreq
    | rewrite Hreq, Hdec; reflexivity ] ].

(** X5: The handlers are tried in the order written, so the first class a
    failure belongs to decides its payload, for each of the three
    tools. *)
Theorem failures_are_classified (e : exn) :
  (forall city_name,
      fails_with up geocoding_url (geocoding_params city_name) e ->
      classified (Tools.get_coordinates_from_city up city_name)
                 "Geocoding" e)
  /\ (forall latitude longitude,
      fails_with up weather_url (weather_params latitude longitude) e ->
      classified (Tools.get_current_weather up latitude longitude)
                 "Weather" e)
  /\ (forall query,
      fails_with up wikipedia_url (wikipedia_params query) e ->
      classified (Tools.search_wikipedia up query) "Wikipedia" e).
Proof.
  split; [| split].
  - intros city H. unfold Tools.get_coordinates_from_city, try_except.
    fold geocoding_url. fold (geocoding_params city).
    failing_call H; classify.
  - intros lat lon H. unfold Tools.get_current_weather, try_except.
    fold weather_url. fold (weather_params lat lon).
    failing_call H; classify.
  - intros query H. unfold Tools.search_wikipedia, try_except.
    fold wikipedia_url. fold (wikipedia_params query).
    failing_call H; classify.
Qed.

End Classification.

(** An upstream whose body cannot be decoded, failing the way
    [requests] reports it: with an exception that is a
    [RequestException] and a [JSONDecodeError] at once. *)
Definition garbled : Http.upstream :=
  fun _ _ _ =>
    Return (Http.mkResponse (Return tt)
              (Raise (mkExn RequestsJSONDecodeError
                        "Expecting value: line 1 column 1 (char 0)" ""))).

Lemma failures_are_classified_witness :
  Tools.search_wikipedia (R := Reference.runtime) garbled "Python"
  = Return (Text.dumps_error
              "Error connecting to Wikipedia API: Expecting value: line 1 column 1 (char 0)").
Proof.
  refine (proj1 (proj2 (proj2 (proj2 (failures_are_classified
            (R := Reference.runtime) garbled
            (mkExn RequestsJSONDecodeError
               "Expecting value: line 1 column 1 (char 0)" ""))) "Python" _))
            eq_refl eq_refl).
  eapply decoding_fails; reflexivity.
Defined.

(* ------------------------------------------------------------------ *)
(** ** The encyclopedia tool on a page that exists *)
(* ------------------------------------------------------------------ *)

Section Wikipedia.
Context {R : Runtime}.
Variable up : Http.upstream.

(** Where the article's summary comes from: the page's [summary] when
    the page has that key, its [extract] otherwise. *)
Definition summary_source (page : list (string * pyval)) : string :=
  if has_key "summary" page then "summary" else "extract".

(** X6: Only the first page of the answer is read.  Its title and its URL
    are returned with the summary taken from [summary_source]; the
    other pages are dropped. *)
Theorem wikipedia_first_page (query : string) entries q id page others
  (ttl smm lnk : string) :
  answers up wikipedia_url (wikipedia_params query) (VDict entries) ->
  lookup "query" entries = Some (VDict q) ->
  lookup "pages" q = Some (VDict ((id, VDict page) :: others)) ->
  has_key "missing" page = false ->
  lookup "title" page = Some (VStr ttl) ->
  lookup (summary_source page) page = Some (VStr smm) ->
  lookup "fullurl" page = Some (VStr lnk) ->
  Tools.search_wikipedia up query
  = Return (WikipediaArticle.model_dump_json
              (WikipediaArticle.mk ttl smm lnk)).
Proof.
  intros Hup Hq Hp Hm Ht Hs Hl.
  unfold Tools.search_wikipedia, try_except.
  fold wikipedia_url. fold (wikipedia_params query).
  upstream_answers Hup.
  cbn [get Py.bind]. rewrite Hq. cbn [get Py.bind]. rewrite Hp.
  cbn [truthy negb first Py.bind getitem]. rewrite lookup_head.
  cbn [Py.bind contains]. rewrite Hm. cbn [get Py.bind]. rewrite Ht, Hl.
  unfold summary_source in Hs.
  destruct (has_key "summary" page); cbn [get Py.bind]; rewrite Hs;
    unfold WikipediaArticle.validate, Model.field;
    cbn [lookup String.eqb Ascii.eqb Bool.eqb];
    rewrite !str_accepts_str; reflexivity.
Qed.

(** X7: A present [summary] wins over the [extract], whatever it holds:
    when it is [null] the article fails validation although an
    extract is there. *)
Theorem wikipedia_null_summary (query : string) entries q id page others
  (ttl ext lnk : string) :
  answers up wikipedia_url (wikipedia_params query) (VDict entries) ->
  lookup "query" entries = Some (VDict q) ->
  lookup "pages" q = Some (VDict ((id, VDict page) :: others)) ->
  has_key "missing" page = false ->
  lookup "title" page = Some (VStr ttl) ->
  lookup "summary" page = Some VNone ->
  lookup "extract" page = Some (VStr ext) ->
  lookup "fullurl" page = Some (VStr lnk) ->
  Tools.search_wikipedia up query
  = Return (Text.dumps_error
              ("Failed to validate Wikipedia article schema: "
               ++ errors_repr [("summary", VNone)])).
Proof.
  intros Hup Hq Hp Hm Ht Hs He Hl.
  unfold Tools.search_wikipedia, try_except.
  fold wikipedia_url. fold (wikipedia_params query).
  upstream_answers Hup.
  cbn [get Py.bind]. rewrite Hq. cbn [get Py.bind]. rewrite Hp.
  cbn [truthy negb first Py.bind getitem]. rewrite lookup_head.
  cbn [Py.bind contains]. rewrite Hm. cbn [get Py.bind]. rewrite Ht, Hl.
  unfold has_key. rewrite !Hs. cbn [get Py.bind].
  unfold WikipediaArticle.validate, Model.field.
  cbn [lookup String.eqb Ascii.eqb Bool.eqb].
  rewrite !str_accepts_str, str_rejects_None. reflexivity.
Qed.

(** X8: A page without a title, without a URL, or with neither summary
    nor extract is a schema error. *)
Theorem wikipedia_schema_error (query : string) entries q id page others
  (key : string) :
  answers up wikipedia_url (wikipedia_params query) (VDict entries) ->
  lookup "query" entries = Some (VDict q) ->
  lookup "pages" q = Some (VDict ((id, VDict page) :: others)) ->
  has_key "missing" page = false ->
  In key ["title"; summary_source page; "fullurl"] ->
  lookup key page = None ->
  exists errs,
    errs <> []
    /\ Tools.search_wikipedia up query
       = Return (Text.dumps_error
                   ("Failed to validate Wikipedia article schema: "
                    ++ errors_repr errs)).
Proof.
  intros Hup Hq Hp Hm Hin Hnone.
  unfold Tools.search_wikipedia, try_except.
  fold wikipedia_url. fold (wikipedia_params query).
  upstream_answers Hup.
  cbn [get Py.bind]. rewrite Hq. cbn [get Py.bind]. rewrite Hp.
  cbn [truthy negb first Py.bind getitem]. rewrite lookup_head.
  cbn [Py.bind contains]. rewrite Hm. cbn [get Py.bind].
  unfold summary_source in Hin. cbn [In] in Hin.
  destruct (has_key "summary" page); cbn [get Py.bind];
    unfold WikipediaArticle.validate, Model.field;
    cbn [lookup String.eqb Ascii.eqb Bool.eqb];
    (repeat (destruct Hin as [<- | Hin]); [..| contradiction]);
    rewrite Hnone; rewrite ?str_rejects_None;
    repeat match goal with
           | |- context [match ?v ?x with Some _ => _ | None => _ end] =>
               destruct (v x)
           end;
    cbn [Py.bind dispatch Model.failure lookup String.eqb Ascii.eqb
         Bool.eqb app];
    (eexists; split; [| reflexivity]; discriminate).
Qed.

End Wikipedia.

Definition two_pages : pyval :=
  VDict [("query",
          VDict [("pages",
                  VDict [("12345",
                          VDict [("pageid", VInt 12345);
                                 ("title", VStr "Artificial intelligence");
                                 ("extract", VStr "AI is intelligence.");
                                 ("fullurl",
                                  VStr "https://en.wikipedia.org/wiki/Artificial_intelligence")]);
                         ("678", VDict [("missing", VStr "")])])])].

Lemma wikipedia_first_page_witness :
  Tools.search_wikipedia (R := Reference.runtime) (serving two_pages)
    "Artificial intelligence"
  = Return (WikipediaArticle.model_dump_json
              (WikipediaArticle.mk "Artificial intelligence"
                 "AI is intelligence."
                 "https://en.wikipedia.org/wiki/Artificial_intelligence")).
Proof.
  eapply (wikipedia_first_page (R := Reference.runtime) (serving two_pages)
            "Artificial intelligence").
  - apply serving_answers.
  - reflexivity.
  - reflexivity.
  - reflexivity.
  - reflexivity.
  - reflexivity.
  - reflexivity.
Defined.

Definition page_with_null_summary : pyval :=
  VDict [("query",
          VDict [("pages",
                  VDict [("7",
                          VDict [("title", VStr "Zorp");
                                 ("summary", VNone);
                                 ("extract", VStr "Zorp the Destroyer.");
                                 ("fullurl", VStr "https://example.org/Zorp")])])])].

Lemma wikipedia_null_summary_witness :
  Tools.search_wikipedia (R := Reference.runtime)
    (serving page_with_null_summary) "Zorp"
  = Return (Text.dumps_error
              ("Failed to validate Wikipedia article schema: "
               ++ errors_repr (Runtime := Reference.runtime)
                    [("summary", VNone)])).
Proof.
  eapply (wikipedia_null_summary (R := Reference.runtime)
            (serving page_with_null_summary) "Zorp").
  - apply serving_answers.
  - reflexivity.
  - reflexivity.
  - reflexivity.
  - reflexivity.
  - reflexivity.
  - reflexivity.
  - reflexivity.
Defined.

Lemma wikipedia_schema_error_witness :
  exists errs,
    errs <> []
    /\ Tools.search_wikipedia (R := Reference.runtime)
         (serving
            (VDict [("query",
                     VDict [("pages",
                             VDict [("9",
                                     VDict [("title", VStr "Stub");
                                            ("extract", VStr "A stub.")])])])]))
         "Stub"
       = Return (Text.dumps_error
                   ("Failed to validate Wikipedia article schema: "
                    ++ errors_repr (Runtime := Reference.runtime) errs)).
Proof.
  eapply (wikipedia_schema_error (R := Reference.runtime) _ "Stub" _ _ _ _ _
            "fullurl").
  - apply serving_answers.
  - reflexivity.
  - reflexivity.
  - reflexivity.
  - right. right. left. reflexivity.
  - reflexivity.
Defined.

(* ------------------------------------------------------------------ *)
(** ** Results and error payloads *)
(* ------------------------------------------------------------------ *)

Section Payloads.
Context {R : Runtime}.


(** The third character of a payload tells an error from a result:
    after the opening brace and quote an error payload continues
    with the [e] of its only key, a result with the first letter of
    its first field. *)
Definition third (s : string) : option ascii := String.get 2 s.

Lemma third_of_error (msg : string) :
  third (Text.dumps_error msg) = Some "e"%char.
Proof. reflexivity. Qed.

(** X10: No error payload is the text of a result, so a reader of a tool's
    output can always tell the two apart. *)
Theorem error_payload_is_no_result (msg : string) :
  (forall c, Text.dumps_error msg <> Coordinates.model_dump_json c)
  /\ (forall w, Text.dumps_error msg <> CurrentWeather.model_dump_json w)
  /\ (forall a, Text.dumps_error msg <> WikipediaArticle.model_dump_json a).
Proof.
  repeat split; intros m H; apply (f_equal third) in H;
    rewrite third_of_error in H; discriminate H.
Qed.

End Payloads.

(* ================================================================== *)
(** * The calculator on arithmetic *)
(* ================================================================== *)

(** The expressions made of integer literals, signs and binary
    operators only: no name, no call, no attribute. *)
Fixpoint arithmetic (e : PyExpr.expr) : bool :=
  match e with
  | PyExpr.Num _ => true
  | PyExpr.Unary _ a => arithmetic a
  | PyExpr.Binary _ l r => arithmetic l && arithmetic r
  | _ => false
  end.

(** What evaluating can give, apart from the state: an int, a
    division by zero, or nothing this development models. *)
Inductive arith_result : Type :=
| Number (i : Z)
| DivisionByZero (msg : string)
| NotModelled.

Definition arith_reply {S} (r : arith_result) (st : S)
  : Eff.reply S PyExpr.value :=
  match r with
  | Number i => Eff.Val (PyExpr.Int i) st
  | DivisionByZero msg => Eff.Exc (PyExpr.zero_division msg) st
  | NotModelled => Eff.Beyond
  end.

Lemma arith_total (op : PyExpr.binop) (a b : Z) :
  exists r, forall st, PyExpr.arith op a b st = arith_reply r st.
Proof.
  destruct op; cbn [PyExpr.arith];
    try (eexists (Number _); reflexivity).
  - destruct (b =? 0)%Z;
      [exists (DivisionByZero "division by zero")
      | exists NotModelled]; reflexivity.
  - destruct (b =? 0)%Z;
      [eexists (DivisionByZero _) | eexists (Number _)]; reflexivity.
  - destruct (b =? 0)%Z;
      [eexists (DivisionByZero _) | eexists (Number _)]; reflexivity.
  - destruct ((b <? 0)%Z || (PyExpr.max_exponent <? b)%Z);
      [exists NotModelled | eexists (Number _)]; reflexivity.
Qed.

(** Evaluating an arithmetic expression neither reads nor writes the
    interpreter state, and does not look at the text it came from. *)
Lemma arithmetic_is_pure (e : PyExpr.expr) :
  arithmetic e = true ->
  exists r, forall expression st,
      PyExpr.eval_expr expression e st = arith_reply r st.
Proof.
  induction e as [n | s | op a IH | op l IHl r IHr | f args | a name];
    intro H; try discriminate H.
  - exists (Number n). reflexivity.
  - destruct (IH H) as [[i | msg |] Hi];
      [ destruct op; [exists (Number i) | exists (Number (- i))]
      | exists (DivisionByZero msg) | exists NotModelled ];
      intros expression st; cbn [PyExpr.eval_expr]; unfold Eff.bind;
      rewrite Hi; reflexivity.
  - cbn [arithmetic] in H. apply andb_true_iff in H as [Hl Hr].
    destruct (IHl Hl) as [[i | msg |] Hi].
    + destruct (IHr Hr) as [[j | msg |] Hj].
      * destruct (arith_total op i j) as [res Hres]. exists res.
        intros expression st. cbn [PyExpr.eval_expr]. unfold Eff.bind.
        rewrite Hi. cbn [arith_reply]. rewrite Hj. apply Hres.
      * exists (DivisionByZero msg). intros expression st.
        cbn [PyExpr.eval_expr]. unfold Eff.bind.
        rewrite Hi. cbn [arith_reply]. rewrite Hj. reflexivity.
      * exists NotModelled. intros expression st.
        cbn [PyExpr.eval_expr]. unfold Eff.bind.
        rewrite Hi. cbn [arith_reply]. rewrite Hj. reflexivity.
    + exists (DivisionByZero msg). intros expression st.
      cbn [PyExpr.eval_expr]. unfold Eff.bind. rewrite Hi. reflexivity.
    + exists NotModelled. intros expression st.
      cbn [PyExpr.eval_expr]. unfold Eff.bind. rewrite Hi. reflexivity.
Qed.

(** X11: On an input that is an arithmetic expression the calculator never
    lets an exception out and never touches the interpreter state: in
    every state it returns the same text, a number or the message of a
    division by zero, or the evaluation is one this development does
    not model. *)
Theorem calculate_arithmetic (expression : string) (e : PyExpr.expr) :
  PyExpr.parse_expression expression = PyExpr.Parsed e ->
  arithmetic e = true ->
  (exists text, forall st,
        PyExpr.calculate expression st = Eff.Val text st)
  \/ (forall st, PyExpr.calculate expression st = Eff.Beyond).
Proof.
  intros Hparse Harith.
  destruct (arithmetic_is_pure e Harith) as [r Hr].
  assert (Heval : forall st,
             PyExpr.eval expression st = arith_reply r st).
  { intro st. unfold PyExpr.eval. rewrite Hparse. apply Hr. }
  destruct r as [i | msg |].
  - destruct (PyExpr.max_str_digits <? PyExpr.digits i)%nat eqn:Hd.
    + right. intro st. unfold PyExpr.calculate.
      rewrite calculate_cases. unfold Eff.bind. rewrite Heval.
      cbn [arith_reply PyExpr.str]. rewrite Hd. reflexivity.
    + left. exists (Text.decimal i). intro st. unfold PyExpr.calculate.
      rewrite calculate_cases. unfold Eff.bind. rewrite Heval.
      cbn [arith_reply PyExpr.str]. rewrite Hd. reflexivity.
  - left. exists ("Error during calculation: " ++ msg). intro st.
    unfold PyExpr.calculate. rewrite calculate_cases.
    unfold Eff.bind. rewrite Heval. reflexivity.
  - right. intro st. unfold PyExpr.calculate. rewrite calculate_cases.
    unfold Eff.bind. rewrite Heval. reflexivity.
Qed.

Lemma calculate_arithmetic_witness :
  (exists text, forall st,
        PyExpr.calculate "(7 - 2 ** 3) // 0" st = Eff.Val text st)
  \/ (forall st, PyExpr.calculate "(7 - 2 ** 3) // 0" st = Eff.Beyond).
Proof.
  eapply (calculate_arithmetic "(7 - 2 ** 3) // 0").
  - vm_compute. reflexivity.
  - reflexivity.
Defined.

(* ================================================================== *)
(** * Further properties of the control loop *)
(* ================================================================== *)

Section Streams.
Context {R : Runtime}.
Variable llm_with_tools : list Agent.message -> string * list Agent.tool_call.
Variable run_tool : Agent.tool_call -> string.

Import Agent.

Local Abbreviation requests := (Agent.requests llm_with_tools).
Local Abbreviation after_rounds :=
  (Agent.after_rounds llm_with_tools run_tool).
Local Abbreviation next := (round llm_with_tools run_tool).

(** The chunks of [n] rounds: the model's message with its requests,
    then the answers to them, round after round. *)
Fixpoint rounds_chunks (n : nat) (state : AgentState) : list chunk :=
  match n with
  | O => []
  | S k =>
      ("agent", [AIMessage (fst (llm_with_tools state)) (requests state)])
        :: ("tools", map (answer run_tool) (requests state))
        :: rounds_chunks k (next state)
  end.

(** The closing chunk, when the graph emits one. *)
Definition end_chunk (emits_end : bool) (final : AgentState) : list chunk :=
  if emits_end then [("__end__", final)] else [].

Lemma run_graph_stream (emits_end : bool) (steps : nat) :
  forall state chunks final,
    Agent.run_graph llm_with_tools run_tool emits_end steps state
    = (chunks, Finished final) ->
    exists n text,
      (2 * n + 1 <= steps)%nat
      /\ (forall k, (k < n)%nat -> requests (after_rounds k state) <> [])
      /\ llm_with_tools (after_rounds n state) = (text, [])
      /\ final = (after_rounds n state ++ [AIMessage text []])%list
      /\ chunks = (rounds_chunks n state
                   ++ ("agent", [AIMessage text []])
                   :: end_chunk emits_end final)%list.
Proof.
  induction steps as [steps IH] using lt_wf_ind.
  intros state chunks final H.
  destruct steps as [|steps]; [discriminate H|].
  cbn [Agent.run_graph] in H. cbv zeta in H.
  rewrite should_continue_after_model in H.
  destruct (requests state) as [|c calls] eqn:Hreq.
  - injection H as <- <-.
    exists 0%nat, (fst (llm_with_tools state)).
    assert (Hllm : llm_with_tools state = (fst (llm_with_tools state), [])).
    { unfold Agent.requests in Hreq.
      destruct (llm_with_tools state); simpl in *; congruence. }
    rewrite call_model_eq, Hreq. unfold add_messages.
    repeat split; try reflexivity; try assumption; try lia.
  - destruct steps as [|steps]; [discriminate H|].
    fold (round llm_with_tools run_tool state) in H.
    destruct (Agent.run_graph llm_with_tools run_tool emits_end steps
                (next state)) as [rest st] eqn:Hrest.
    injection H as <- ->.
    destruct (IH steps ltac:(lia) _ _ _ Hrest)
      as (n & text & Hn & He1 & He2 & He3 & He4).
    exists (S n), text. repeat split.
    + lia.
    + intros [|k] Hk.
      * simpl. rewrite Hreq. discriminate.
      * rewrite after_rounds_step. apply He1. lia.
    + rewrite after_rounds_step. exact He2.
    + rewrite after_rounds_step. exact He3.
    + rewrite He4. cbn [rounds_chunks app].
      rewrite tool_node_after_model, call_model_eq, Hreq. reflexivity.
Qed.

(** The closing chunk changes neither how a run ends nor the chunks
    that are no closing chunk. *)
Lemma run_graph_end_marker (steps : nat) :
  forall state,
    snd (Agent.run_graph llm_with_tools run_tool true steps state)
    = snd (Agent.run_graph llm_with_tools run_tool false steps state)
    /\ filter not_end
         (fst (Agent.run_graph llm_with_tools run_tool true steps state))
       = filter not_end
           (fst (Agent.run_graph llm_with_tools run_tool false steps state)).
Proof.
  induction steps as [steps IH] using lt_wf_ind. intro state.
  destruct steps as [|steps]; [split; reflexivity|].
  cbn [Agent.run_graph]. cbv zeta.
  destruct (should_continue _); [| split; reflexivity].
  destruct steps as [|steps]; [split; reflexivity|].
  destruct (IH steps ltac:(lia)
              (add_messages
                 (add_messages state (Agent.call_model llm_with_tools state))
                 (Agent.tool_node run_tool
                    (add_messages state
                       (Agent.call_model llm_with_tools state)))))
    as [Hs Hf].
  destruct (Agent.run_graph llm_with_tools run_tool true steps _)
    as [rest1 st1].
  destruct (Agent.run_graph llm_with_tools run_tool false steps _)
    as [rest2 st2].
  simpl in Hs, Hf. subst st2. split; [reflexivity|].
  cbn [fst]. cbn [filter not_end fst negb String.eqb Ascii.eqb Bool.eqb].
  rewrite Hf. reflexivity.
Qed.

End Streams.



(** X13: [run_query] skips the closing chunk, so its result is the same
    whether or not the graph emits one. *)
Theorem run_query_ignores_end_marker `{R : Runtime}
  (llm_with_tools : list Agent.message -> string * list Agent.tool_call)
  (run_tool : Agent.tool_call -> string)
  (recursion_limit : nat) (query : string) :
  Agent.run_query llm_with_tools run_tool true recursion_limit query
  = Agent.run_query llm_with_tools run_tool false recursion_limit query.
Proof.
  unfold Agent.run_query, Agent.astream.
  destruct (run_graph_end_marker llm_with_tools run_tool recursion_limit
              [Agent.HumanMessage query]) as [Hs Hf].
  destruct (Agent.run_graph llm_with_tools run_tool true recursion_limit _)
    as [c1 s1].
  destruct (Agent.run_graph llm_with_tools run_tool false recursion_limit _)
    as [c2 s2].
  simpl in Hs, Hf. subst s2.
  change (filter (fun s => negb (String.eqb (fst s) "__end__")) c1)
    with (filter not_end c1).
  change (filter (fun s => negb (String.eqb (fst s) "__end__")) c2)
    with (filter not_end c2).
  rewrite Hf. reflexivity.
Qed.

(** X14: A model that never stops asking for tools gets no answer from
    [run_query]: whatever the step limit, the run stops at it and the
    graph's error is raised. *)
Theorem loop_without_direct_answer `{R : Runtime}
  (llm_with_tools : list Agent.message -> string * list Agent.tool_call)
  (run_tool : Agent.tool_call -> string)
  (emits_end : bool) (recursion_limit : nat) (query : string) :
  (forall k,
      Agent.requests llm_with_tools
        (Agent.after_rounds llm_with_tools run_tool k
           [Agent.HumanMessage query]) <> []) ->
  snd (Agent.stream_query llm_with_tools run_tool emits_end recursion_limit
         query) = Agent.LimitReached
  /\ Agent.run_query llm_with_tools run_tool emits_end recursion_limit query
     = Raise Agent.graph_recursion_error.
Proof.
  intro Hreq.
  destruct (Agent.stream_query llm_with_tools run_tool emits_end
              recursion_limit query) as [chunks [final|]] eqn:Hs.
  - destruct (run_graph_stream llm_with_tools run_tool emits_end
                recursion_limit _ _ _ Hs)
      as (n & text & _ & _ & Hllm & _).
    exfalso. apply (Hreq n). unfold Agent.requests. rewrite Hllm.
    reflexivity.
  - split; [reflexivity|].
    eapply run_query_limit. exact Hs.
Qed.

(** A model that asks for the calculator again and again. *)
Definition insistent (messages : list Agent.message)
  : string * list Agent.tool_call :=
  ("", [Agent.mkCall "calculate" [("expression", VStr "1 + 1")] "call"]).

Lemma loop_without_direct_answer_witness :
  Agent.run_query (R := Reference.runtime) insistent (fun _ => "2") false 25
    "What is 1 + 1?"
  = Raise Agent.graph_recursion_error.
Proof.
  apply (loop_without_direct_answer (R := Reference.runtime) insistent
           (fun _ => "2") false 25 "What is 1 + 1?").
  intros k. discriminate.
Defined.

(* ================================================================== *)
(** * The trajectory the test suite extracts *)
(* ================================================================== *)

(** [tests/conftest.py]: [get_agent_trajectory] runs the agent in
    streaming mode and turns each chunk into events, looking at the
    last message of the chunk only. *)
Module Conftest.

(** The three kinds of entries of a trajectory: [tool_call],
    [tool_output] and [final_response]. *)
Inductive event : Type :=
| ToolCall (tool_name : string) (tool_args : list (string * pyval))
| ToolOutput (tool_name : string) (output : string)
| FinalResponse (content : string).

Definition call_event (c : Agent.tool_call) : event :=
  ToolCall (Agent.call_name c) (Agent.call_args c).

Section WithAgent.
Context {R : Runtime}.
Variable llm_with_tools : list Agent.message -> string * list Agent.tool_call.
Variable run_tool : Agent.tool_call -> string.
Variable emits_end : bool.
Variable recursion_limit : nat.

(** The body of the loop, for one [step] of the stream. *)
Definition step_events (step : Agent.chunk) : outcome (list event) :=
  let has key := String.eqb (fst step) key in
  if negb (has "agent") && negb (has "tools") then Return []
  else
    last_message <- Agent.last_of TList (snd step) ;;
    match last_message with
    | Agent.AIMessage _ (c :: calls) =>
        Return (map call_event (c :: calls))
    | Agent.ToolMessage content name _ =>
        Return [ToolOutput name content]
    | Agent.AIMessage content [] => Return [FinalResponse content]
    | Agent.HumanMessage _ => Return []
    end.

Fixpoint collect (stream : list Agent.chunk) : outcome (list event) :=
  match stream with
  | [] => Return []
  | step :: rest =>
      events <- step_events step ;;
      more <- collect rest ;;
      Return (events ++ more)%list
  end.

Definition get_agent_trajectory (query : string) : outcome (list event) :=
  let '(stream, st) :=
    Agent.stream_query llm_with_tools run_tool emits_end recursion_limit
      query in
  trajectory <- collect stream ;;
  match st with
  | Agent.Finished _ => Return trajectory
  | Agent.LimitReached => Raise Agent.graph_recursion_error
  end.

(** ** What the trajectory of a finished run is *)

(** The events of one round: one [tool_call] per request, and one
    [tool_output], that of the last request. *)
Definition round_events (calls : list Agent.tool_call) : list event :=
  (map call_event calls
   ++ match List.last (map Some calls) None with
      | Some c => [ToolOutput (Agent.call_name c) (run_tool c)]
      | None => []
      end)%list.

Fixpoint rounds_events (n : nat) (state : Agent.AgentState) : list event :=
  match n with
  | O => []
  | S k =>
      (round_events (Agent.requests llm_with_tools state)
       ++ rounds_events k (round llm_with_tools run_tool state))%list
  end.

Definition is_output (e : event) : bool :=
  match e with ToolOutput _ _ => true | _ => false end.

Definition is_final (e : event) : bool :=
  match e with FinalResponse _ => true | _ => false end.

End WithAgent.
End Conftest.

Section Trajectory.
Context {R : Runtime}.
Variable llm_with_tools : list Agent.message -> string * list Agent.tool_call.
Variable run_tool : Agent.tool_call -> string.

Import Agent Conftest.

Lemma last_answer (calls : list tool_call) :
  List.last (map Some (map (answer run_tool) calls)) None
  = match List.last (map Some calls) None with
    | Some c => Some (answer run_tool c)
    | None => None
    end.
Proof.
  induction calls as [|c calls IH]; [reflexivity|].
  change (map (answer run_tool) (c :: calls))
    with (answer run_tool c :: map (answer run_tool) calls).
  rewrite (last_some_cons (answer run_tool c)), IH.
  rewrite (last_some_cons c).
  destruct (List.last (map Some calls) None); reflexivity.
Qed.

Lemma collect_app (s1 s2 : list chunk) (e1 e2 : list event) :
  collect s1 = Return e1 -> collect s2 = Return e2 ->
  collect (s1 ++ s2) = Return (e1 ++ e2)%list.
Proof.
  revert e1. induction s1 as [|step s1 IH]; intros e1 H1 H2.
  - injection H1 as <-. exact H2.
  - cbn [collect app] in *.
    destruct (step_events step) as [ev|x]; [|discriminate H1].
    cbn [Py.bind] in *.
    destruct (collect s1) as [more|x]; [|discriminate H1].
    cbn [Py.bind] in H1. injection H1 as <-.
    rewrite (IH more eq_refl H2). cbn [Py.bind].
    rewrite app_assoc. reflexivity.
Qed.

Lemma collect_rounds (n : nat) :
  forall state,
    (forall k, (k < n)%nat ->
               Agent.requests llm_with_tools
                 (Agent.after_rounds llm_with_tools run_tool k state) <> []) ->
    collect (rounds_chunks llm_with_tools run_tool n state)
    = Return (rounds_events llm_with_tools run_tool n state).
Proof.
  induction n as [|n IH]; intros state Hreq; [reflexivity|].
  cbn [rounds_chunks rounds_events collect].
  pose proof (Hreq 0%nat ltac:(lia)) as H0. simpl in H0.
  destruct (Agent.requests llm_with_tools state) as [|c calls] eqn:E;
    [contradiction|].
  unfold step_events at 1. cbn [fst snd String.eqb Ascii.eqb Bool.eqb
                                negb andb last_of map List.last Py.bind].
  unfold step_events at 1. cbn [fst snd String.eqb Ascii.eqb Bool.eqb
                                negb andb Py.bind].
  change (answer run_tool c :: map (answer run_tool) calls)
    with (map (answer run_tool) (c :: calls)).
  unfold last_of. rewrite last_answer.
  rewrite IH.
  2: { intros k Hk. rewrite <- after_rounds_step. apply Hreq. lia. }
  unfold round_events.
  destruct (List.last (map Some (c :: calls)) None) as [d|] eqn:Hl.
  - cbn [Py.bind answer]. rewrite <- !app_assoc. reflexivity.
  - exfalso. rewrite last_some_cons in Hl.
    destruct (List.last (map Some calls) None); discriminate Hl.
Qed.

Lemma outputs_per_round (n : nat) :
  forall state,
    (forall k, (k < n)%nat ->
               Agent.requests llm_with_tools
                 (Agent.after_rounds llm_with_tools run_tool k state) <> []) ->
    List.length (filter is_output
                   (rounds_events llm_with_tools run_tool n state)) = n
    /\ filter is_final (rounds_events llm_with_tools run_tool n state) = [].
Proof.
  assert (Hcalls : forall calls : list tool_call,
             filter is_output (map call_event calls) = []
             /\ filter is_final (map call_event calls) = []).
  { induction calls as [|c calls [IH1 IH2]]; [split; reflexivity|].
    split; assumption. }
  induction n as [|n IH]; intros state Hreq; [split; reflexivity|].
  cbn [rounds_events]. unfold round_events.
  pose proof (Hreq 0%nat ltac:(lia)) as H0. simpl in H0.
  destruct (IH (round llm_with_tools run_tool state)) as [IH1 IH2].
  { intros k Hk. rewrite <- after_rounds_step. apply Hreq. lia. }
  destruct (Hcalls (Agent.requests llm_with_tools state)) as [Hc1 Hc2].
  destruct (List.last (map Some (Agent.requests llm_with_tools state)) None)
    as [d|] eqn:Hl.
  - rewrite !filter_app, Hc1, Hc2, IH2.
    cbn [filter is_output is_final app List.length].
    rewrite IH1. split; reflexivity.
  - exfalso. destruct (Agent.requests llm_with_tools state) as [|c calls];
      [contradiction|].
    rewrite last_some_cons in Hl.
    destruct (List.last (map Some calls) None); discriminate Hl.
Qed.

End Trajectory.


(** A model that asks for two tools at once, then answers. *)
Definition two_at_once (messages : list Agent.message)
  : string * list Agent.tool_call :=
  match messages with
  | [_] =>
      ("", [Agent.mkCall "calculate" [("expression", VStr "1 + 1")] "a";
            Agent.mkCall "calculate" [("expression", VStr "2 + 2")] "b"])
  | _ => ("2 and 4.", [])
  end.

Definition run_expression (c : Agent.tool_call) : string :=
  match Agent.call_args c with
  | [(_, VStr "1 + 1")] => "2"
  | _ => "4"
  end.


(** The run above, spelled out: two requests in one round leave two
    [tool_call] entries and one [tool_output], that of the second. *)
Example trajectory_of_two_requests :
  Conftest.get_agent_trajectory (R := Reference.runtime) two_at_once
    run_expression false 25 "Add them."
  = Return [Conftest.ToolCall "calculate" [("expression", VStr "1 + 1")];
            Conftest.ToolCall "calculate" [("expression", VStr "2 + 2")];
            Conftest.ToolOutput "calculate" "4";
            Conftest.FinalResponse "2 and 4."].
Proof. vm_compute. reflexivity. Qed.

(* ================================================================== *)
(** * Empty answers and malformed entries *)
(* ================================================================== *)

Section EmptyAnswers.
Context {R : Runtime}.
Variable up : Http.upstream.

(** X16: The tools test [results] and [pages] for truth, so every empty or
    null value there -- [null], [false], [0], an empty string, list or
    object -- counts as "nothing found", not only a missing key or an
    empty list. *)
Theorem falsy_answers_are_not_found entries (v : pyval) :
  truthy v = false ->
  (forall city_name,
      answers up geocoding_url (geocoding_params city_name)
              (VDict entries) ->
      lookup "results" entries = Some v ->
      Tools.get_coordinates_from_city up city_name
      = Return (Text.dumps_error
                  ("Could not find coordinates for city: " ++ city_name)))
  /\ (forall query q,
      answers up wikipedia_url (wikipedia_params query) (VDict entries) ->
      lookup "query" entries = Some (VDict q) ->
      lookup "pages" q = Some v ->
      Tools.search_wikipedia up query
      = Return (Text.dumps_error
                  "No wikipedia article found for the query")).
Proof.
  intro Hv. split.
  - intros city Hup Hres.
    unfold Tools.get_coordinates_from_city, try_except.
    fold geocoding_url. fold (geocoding_params city).
    upstream_answers Hup.
    cbn [get Py.bind]. rewrite Hres, Hv. reflexivity.
  - intros query q Hup Hq Hp.
    unfold Tools.search_wikipedia, try_except.
    fold wikipedia_url. fold (wikipedia_params query).
    upstream_answers Hup.
    cbn [get Py.bind]. rewrite Hq. cbn [get Py.bind]. rewrite Hp, Hv.
    reflexivity.
Qed.

(** X17: A [current] entry that is no object -- [null], a number, a list, a
    string -- passes the presence test and then fails at the first
    field read from it: the unexpected-error payload, not the "no
    data" one and not a schema error. *)
Theorem weather_current_not_an_object (latitude longitude : float)
  entries (current : pyval) :
  answers up weather_url (weather_params latitude longitude)
          (VDict entries) ->
  lookup "current" entries = Some current ->
  is_dict current = false ->
  Tools.get_current_weather up latitude longitude
  = Return (Text.dumps_error
              ("An unexpected error occurred during weather retrieval: "
               ++ describe (NoAttribute (type_of current) "get"))).
Proof.
  intros Hup Hcur Hd.
  unfold Tools.get_current_weather, try_except.
  fold weather_url. fold (weather_params latitude longitude).
  upstream_answers Hup.
  cbn [contains getitem Py.bind]. unfold has_key. rewrite Hcur.
  cbn [negb Py.bind].
  destruct current; try discriminate Hd; reflexivity.
Qed.

End EmptyAnswers.

Lemma falsy_answers_are_not_found_witness :
  Tools.get_coordinates_from_city (R := Reference.runtime)
    (serving (VDict [("results", VNone)])) "Atlantis"
  = Return (Text.dumps_error "Could not find coordinates for city: Atlantis").
Proof.
  apply (proj1 (falsy_answers_are_not_found (R := Reference.runtime)
                  (serving (VDict [("results", VNone)]))
                  [("results", VNone)] VNone eq_refl) "Atlantis").
  - apply serving_answers.
  - reflexivity.
Defined.

Lemma weather_current_not_an_object_witness :
  Tools.get_current_weather (R := Reference.runtime)
    (serving (VDict [("current", VNone)])) 51.5 (-0.125)
  = Return (Text.dumps_error
              "An unexpected error occurred during weather retrieval: 'NoneType' object has no attribute 'get'").
Proof.
  apply (weather_current_not_an_object (R := Reference.runtime)
           (serving (VDict [("current", VNone)])) 51.5%float (-0.125)%float
           [("current", VNone)] VNone).
  - apply serving_answers.
  - reflexivity.
  - reflexivity.
Defined.

(* ================================================================== *)
(** * Requests and results stay paired *)
(* ================================================================== *)

Section Pairing.
Context {R : Runtime}.
Variable llm_with_tools : list Agent.message -> string * list Agent.tool_call.
Variable run_tool : Agent.tool_call -> string.

Import Agent.

(** The tool messages of [tr] that answer no waiting request, given
    the requests [open] waiting at its start. *)
Fixpoint unrequested_from (open : list tool_call) (tr : list message)
  : list message :=
  match tr with
  | [] => []
  | AIMessage _ calls :: rest => unrequested_from (open ++ calls) rest
  | ToolMessage c name id :: rest =>
      if existsb (same_call id name) open then
        unrequested_from (close id name open) rest
      else ToolMessage c name id :: unrequested_from open rest
  | HumanMessage _ :: rest => unrequested_from open rest
  end.

Definition unrequested (tr : list message) : list message :=
  unrequested_from [] tr.

Definition is_tool_message (m : message) : bool :=
  match m with ToolMessage _ _ _ => true | _ => false end.

(** All the requests the model messages of a transcript carry. *)
Definition all_requests (tr : list message) : list tool_call :=
  flat_map tool_calls tr.

Lemma close_without_match id name (open : list tool_call) :
  existsb (same_call id name) open = false -> close id name open = open.
Proof.
  induction open as [|c open IH]; [reflexivity|].
  cbn [existsb close]. destruct (same_call id name c); [discriminate|].
  intro H. rewrite (IH H). reflexivity.
Qed.

Lemma unrequested_from_app (open : list tool_call) (tr1 tr2 : list message) :
  unrequested_from open (tr1 ++ tr2)
  = (unrequested_from open tr1
     ++ unrequested_from (unanswered_from open tr1) tr2)%list.
Proof.
  revert open. induction tr1 as [|m tr1 IH]; intro open; [reflexivity|].
  destruct m as [c | c calls | c name id]; cbn [app unrequested_from
                                                   unanswered_from].
  - apply IH.
  - apply IH.
  - destruct (existsb (same_call id name) open) eqn:E.
    + apply IH.
    + rewrite (close_without_match _ _ _ E), IH. reflexivity.
Qed.

Lemma answers_are_requested (calls : list tool_call) :
  unrequested_from calls (map (answer run_tool) calls) = [].
Proof.
  induction calls as [|c calls IH]; [reflexivity|].
  cbn [map answer unrequested_from existsb close]. unfold same_call.
  rewrite !String.eqb_refl. exact IH.
Qed.

Lemma round_pairs (state : AgentState) :
  unanswered state = [] ->
  unrequested (round llm_with_tools run_tool state) = unrequested state
  /\ List.length (filter is_tool_message
                    (round llm_with_tools run_tool state))
     = (List.length (filter is_tool_message state)
        + List.length (Agent.requests llm_with_tools state))%nat
  /\ all_requests (round llm_with_tools run_tool state)
     = (all_requests state ++ Agent.requests llm_with_tools state)%list.
Proof.
  intro Hopen. unfold round, add_messages.
  rewrite tool_node_after_model, call_model_eq.
  split; [| split].
  - unfold unrequested. rewrite !unrequested_from_app.
    fold (unanswered state). rewrite Hopen.
    cbn [unrequested_from unanswered_from app].
    unfold unanswered in Hopen. rewrite unanswered_from_app, Hopen.
    cbn [unanswered_from app].
    rewrite answers_are_requested, !app_nil_r. reflexivity.
  - rewrite !filter_app, !length_app. cbn [filter is_tool_message
                                             List.length].
    replace (filter is_tool_message
               (map (answer run_tool) (Agent.requests llm_with_tools state)))
      with (map (answer run_tool) (Agent.requests llm_with_tools state)).
    + rewrite length_map. lia.
    + induction (Agent.requests llm_with_tools state) as [|c l IH];
        [reflexivity|]. cbn [map filter answer is_tool_message].
      rewrite <- IH. reflexivity.
  - unfold all_requests. rewrite !flat_map_app.
    cbn [flat_map tool_calls app].
    replace (flat_map tool_calls
               (map (answer run_tool) (Agent.requests llm_with_tools state)))
      with (@nil tool_call).
    + rewrite !app_nil_r. reflexivity.
    + induction (Agent.requests llm_with_tools state) as [|c l IH];
        [reflexivity|]. exact IH.
Qed.

End Pairing.

(** X18: At every round boundary, finished or not, the transcript is
    paired: no request is waiting for its result, no tool result
    stands without the request it answers, and there are exactly as
    many tool results as requests. *)
Theorem transcript_stays_paired
  (llm_with_tools : list Agent.message -> string * list Agent.tool_call)
  (run_tool : Agent.tool_call -> string) (query : string) (n : nat) :
  let transcript :=
    Agent.after_rounds llm_with_tools run_tool n [Agent.HumanMessage query] in
  Agent.unanswered transcript = []
  /\ unrequested transcript = []
  /\ List.length (filter is_tool_message transcript)
     = List.length (all_requests transcript).
Proof.
  cbv zeta.
  assert (H : forall state,
             Agent.unanswered state = [] ->
             unrequested state = [] ->
             List.length (filter is_tool_message state)
             = List.length (all_requests state) ->
             Agent.unanswered
               (Agent.after_rounds llm_with_tools run_tool n state) = []
             /\ unrequested
                  (Agent.after_rounds llm_with_tools run_tool n state) = []
             /\ List.length
                  (filter is_tool_message
                     (Agent.after_rounds llm_with_tools run_tool n state))
                = List.length
                    (all_requests
                       (Agent.after_rounds llm_with_tools run_tool n state))).
  { induction n as [|k IH]; intros state H1 H2 H3; [auto|].
    rewrite after_rounds_step.
    destruct (round_pairs llm_with_tools run_tool state H1)
      as (Hu & Hl & Ha).
    apply IH.
    - apply round_answers_everything, H1.
    - rewrite Hu. exact H2.
    - rewrite Hl, Ha, length_app, H3. reflexivity. }
  apply H; reflexivity.
Qed.
